(** * The analysis store of [src/store/store.js]

    A shallow embedding of the zustand store [useAnalysisStore]: the state it
    holds, its actions as functions from state to state, and its getters.

    Modelling decisions.
    - JavaScript objects with known keys are records whose fields are
      [option]s: [None] is a key that is absent (it reads as [undefined]).
      Keys the store never inspects travel in the [extra] map.  The object
      spread [{...a, ...b}] is [Analysis.spread a b].
    - Numbers: counters are integers ([Z]); confidences are exact rationals
      ([Q]); a computed number is a [number], which adds [NaN] and the two
      infinities that a division can produce.  Rounding of doubles is not
      modelled.
    - A timestamp is an ISO string in the source and is only ever read
      through [new Date(ts)]; the model carries the time value of that date,
      in milliseconds.
    - [Date.now()], [Math.random()] and [new Date()] are inputs of
      [addAnalysis], gathered in an [Env].
    - [String.prototype.localeCompare] belongs to the host; it is a
      parameter of [getFilteredHistory].
    - [statistics.analysisTypes] and the summary of [getViolationSummary] are
      plain objects used as maps: the own properties are a [gmap], and a key
      that is not an own property reads as the member the object inherits
      from [Object.prototype] under that name, when there is one.
    - zustand's [set] merges what an action returns into the state; every
      action below returns the whole next state, with the fields it does not
      mention copied over. *)

From Stdlib Require Import ZArith QArith String Sorted Lqa.
From stdpp Require Import base option list gmap strings fin_maps pretty.

Local Open Scope Z_scope.

(** ** Numbers *)

Inductive number :=
  | NaN
  | PInf
  | NInf
  | Fin (q : Q).

(** [a / b] on finite operands. *)
Definition number_div (a b : Q) : number :=
  if Qeq_bool b 0 then
    if Qeq_bool a 0 then NaN
    else if Qle_bool 0 a then PInf else NInf
  else Fin (a / b).

(** Unary minus. *)
Definition number_opp (n : number) : number :=
  match n with
  | NaN => NaN
  | PInf => NInf
  | NInf => PInf
  | Fin q => Fin (- q)
  end.

(** [n > 0]; false on [NaN]. *)
Definition number_pos (n : number) : bool :=
  match n with
  | NaN => false
  | PInf => true
  | NInf => false
  | Fin q => negb (Qle_bool q 0)
  end.

(** [c > 0] on a finite number. *)
Definition Qpositive (c : Q) : bool := negb (Qle_bool c 0).

(** [cs.reduce((a, b) => a + b, 0) / cs.length] *)
Definition average (cs : list Q) : number :=
  number_div (fold_left Qplus cs 0%Q) (inject_Z (Z.of_nat (length cs))).

(** Truthiness of a string: only the empty string is falsy. *)
Definition truthy (s : string) : bool := negb (String.eqb s "").

(** A key of the right-hand object of a spread overrides the left-hand one. *)
Definition override {A} (new old : option A) : option A :=
  match new with
  | Some x => Some x
  | None => old
  end.

(** ** Plain objects used as maps *)

(** The names a plain object inherits from [Object.prototype]. *)
Definition Object_prototype_names : list string :=
  ["constructor"; "__defineGetter__"; "__defineSetter__"; "hasOwnProperty";
   "__lookupGetter__"; "__lookupSetter__"; "isPrototypeOf";
   "propertyIsEnumerable"; "toString"; "valueOf"; "__proto__";
   "toLocaleString"].

Definition inherited (k : string) : bool :=
  bool_decide (k ∈ Object_prototype_names).

(** What a read of [o[k]] yields in this store, when it is not [undefined]:
    a number, [NaN], or, under an inherited name, the inherited member itself
    ([Inherited 0]) or the string that [+ 1] makes of it: its text followed
    by that many characters ['1'].  Such a string is never the text of a
    number. *)
Inductive entry :=
  | Count (n : Z)
  | NotANumber
  | Inherited (ones : nat).

(** [o[k]]: the own property, else the inherited member, else [undefined]. *)
Definition object_get (o : gmap string entry) (k : string) : option entry :=
  match o !! k with
  | Some v => Some v
  | None => if inherited k then Some (Inherited 0) else None
  end.

(** [o[k] = v] by assignment.  Without an own property of that name,
    [__proto__] is the setter of [Object.prototype], which ignores a value
    that is not an object. *)
Definition object_set (o : gmap string entry) (k : string) (v : entry) : gmap string entry :=
  if String.eqb k "__proto__" && bool_decide (o !! k = None) then o
  else <[k := v]> o.

(** Truthiness of what a read yields: [undefined], [0] and [NaN] are falsy;
    functions, objects and non-empty strings are truthy. *)
Definition entry_truthy (v : option entry) : bool :=
  match v with
  | Some (Count n) => negb (n =? 0)
  | Some (Inherited _) => true
  | Some NotANumber | None => false
  end.

(** [(v || 0) + 1]: a number plus one, or a string with ['1'] appended. *)
Definition or_0_plus_1 (v : option entry) : entry :=
  match v with
  | Some (Count n) => Count (n + 1)
  | Some (Inherited ones) => Inherited (S ones)
  | Some NotANumber | None => Count 1
  end.

(** [v - 1]: only a number stays a number. *)
Definition minus_1 (v : option entry) : entry :=
  match v with
  | Some (Count n) => Count (n - 1)
  | _ => NotANumber
  end.

(** ** Data model *)

Module Violation.
Record t := mk { type : option string }.
End Violation.

Module Analysis.
Record t := mk {
  id : option string;
  timestamp : option Z;
  type : option string;
  confidence : option Q;
  status : option string;
  violations : option (list Violation.t);
  extra : gmap string string
}.

(** The empty object [{}]. *)
Definition empty : t := mk None None None None None None ∅.

(** [{...a, ...b}] *)
Definition spread (a b : t) : t :=
  {| id := override (id b) (id a);
     timestamp := override (timestamp b) (timestamp a);
     type := override (type b) (type a);
     confidence := override (confidence b) (confidence a);
     status := override (status b) (status a);
     violations := override (violations b) (violations a);
     extra := extra b ∪ extra a |}.

(** [a.violations?.length || 0] *)
Definition violations_length (a : t) : Z :=
  match violations a with
  | Some vs => Z.of_nat (length vs)
  | None => 0
  end.

(** [a.confidence || 0] *)
Definition confidence_or_0 (a : t) : Q :=
  match confidence a with
  | Some c => if Qeq_bool c 0 then 0%Q else c
  | None => 0%Q
  end.

(** [a.id === analysisId] *)
Definition has_id (analysisId : string) (a : t) : Prop :=
  id a = Some analysisId.

#[global] Instance has_id_dec analysisId a : Decision (has_id analysisId a).
Proof. unfold has_id. apply _. Defined.
End Analysis.

Record Statistics := mkStatistics {
  totalAnalyses : Z;
  violationsDetected : Z;
  averageConfidence : number;
  analysisTypes : gmap string entry
}.

Record Filters := mkFilters {
  dateFrom : option Z;
  dateTo : option Z;
  violationType : string;
  sortBy : string;
  sortOrder : string
}.

(** The argument of [setFilters]: any subset of the keys of [Filters]. *)
Record PartialFilters := mkPartialFilters {
  p_dateFrom : option (option Z);
  p_dateTo : option (option Z);
  p_violationType : option string;
  p_sortBy : option string;
  p_sortOrder : option string
}.

Record State := mkState {
  analysisHistory : list Analysis.t;
  statistics : Statistics;
  filters : Filters;
  selectedAnalysis : option Analysis.t;
  isLoading : bool;
  error : option string
}.

(** What [addAnalysis] reads from the host. *)
Record Env := mkEnv {
  date_now : Z;            (* Date.now() *)
  random_suffix : string;  (* Math.random().toString(36).substr(2, 9) *)
  new_date : Z             (* new Date(), as a time value *)
}.

Definition emptyStatistics : Statistics :=
  {| totalAnalyses := 0;
     violationsDetected := 0;
     averageConfidence := Fin 0;
     analysisTypes := ∅ |}.

Definition defaultFilters : Filters :=
  {| dateFrom := None;
     dateTo := None;
     violationType := "all";
     sortBy := "date";
     sortOrder := "desc" |}.

Definition initialState : State :=
  {| analysisHistory := [];
     statistics := emptyStatistics;
     filters := defaultFilters;
     selectedAnalysis := None;
     isLoading := false;
     error := None |}.

(** ** Actions *)

(** [`analysis_${Date.now()}_${Math.random().toString(36).substr(2, 9)}`] *)
Definition generated_id (e : Env) : string :=
  "analysis_" +:+ pretty (date_now e) +:+ "_" +:+ random_suffix e.

(** The positive entries of [history.map((a) => a.confidence || 0)]. *)
Definition positive_confidences (history : list Analysis.t) : list Q :=
  List.filter Qpositive (map Analysis.confidence_or_0 history).

(** [cs.length > 0 ? cs.reduce((a, b) => a + b, 0) / cs.length : 0] *)
Definition guarded_average (cs : list Q) : number :=
  if (0 <? Z.of_nat (length cs)) then average cs else Fin 0.

(** [state.selectedAnalysis?.id === analysisId] *)
Definition selected_has_id (analysisId : string) (selected : option Analysis.t) : bool :=
  match selected with
  | Some a => bool_decide (Analysis.has_id analysisId a)
  | None => false
  end.

(** [{ id: ..., timestamp: new Date().toISOString(), ...analysis }] *)
Definition newAnalysis (e : Env) (analysis : Analysis.t) : Analysis.t :=
  Analysis.spread
    {| Analysis.id := Some (generated_id e);
       Analysis.timestamp := Some (new_date e);
       Analysis.type := None;
       Analysis.confidence := None;
       Analysis.status := None;
       Analysis.violations := None;
       Analysis.extra := ∅ |}
    analysis.

Definition addAnalysis (e : Env) (analysis : Analysis.t) (state : State) : State :=
  let updatedHistory := newAnalysis e analysis :: analysisHistory state in
  let stats := statistics state in
  let total := totalAnalyses stats + 1 in
  let detected := violationsDetected stats + Analysis.violations_length analysis in
  let types :=
    match Analysis.type analysis with
    | Some ty =>
        if truthy ty
        then <[ty := or_0_plus_1 (object_get (analysisTypes stats) ty)]>
               (analysisTypes stats)
        else analysisTypes stats
    | None => analysisTypes stats
    end in
  let avg :=
    match Analysis.confidence analysis with
    | Some c =>
        let allConfidences :=
          List.filter Qpositive
            (map Analysis.confidence_or_0 (analysisHistory state) ++ [c]) in
        average allConfidences
    | None => averageConfidence stats
    end in
  {| analysisHistory := updatedHistory;
     statistics :=
       {| totalAnalyses := total;
          violationsDetected := detected;
          averageConfidence := avg;
          analysisTypes := types |};
     filters := filters state;
     selectedAnalysis := selectedAnalysis state;
     isLoading := isLoading state;
     error := error state |}.

(** The source decrements the type bucket in place, in the [analysisTypes]
    object that the previous state shares with the next one; here only the
    next state is returned. *)
Definition removeAnalysis (analysisId : string) (state : State) : State :=
  match list_find (Analysis.has_id analysisId) (analysisHistory state) with
  | None => state
  | Some (_, analysis) =>
      let updatedHistory :=
        filter (λ a, ¬ Analysis.has_id analysisId a) (analysisHistory state) in
      let stats := statistics state in
      let total := Z.max 0 (totalAnalyses stats - 1) in
      let detected :=
        Z.max 0 (violationsDetected stats - Analysis.violations_length analysis) in
      let types :=
        match Analysis.type analysis with
        | Some ty =>
            if truthy ty && entry_truthy (object_get (analysisTypes stats) ty)
            then object_set (analysisTypes stats) ty
                   (minus_1 (object_get (analysisTypes stats) ty))
            else analysisTypes stats
        | None => analysisTypes stats
        end in
      let avg :=
        if (0 <? Z.of_nat (length updatedHistory))
        then guarded_average (positive_confidences updatedHistory)
        else Fin 0 in
      {| analysisHistory := updatedHistory;
         statistics :=
           {| totalAnalyses := total;
              violationsDetected := detected;
              averageConfidence := avg;
              analysisTypes := types |};
         filters := filters state;
         selectedAnalysis :=
           if selected_has_id analysisId (selectedAnalysis state)
           then None else selectedAnalysis state;
         isLoading := isLoading state;
         error := error state |}
  end.

(** [updates.confidence !== undefined && old.confidence !== updates.confidence] *)
Definition confidence_changed (old updates : Analysis.t) : bool :=
  match Analysis.confidence updates with
  | Some c =>
      match Analysis.confidence old with
      | Some c' => negb (Qeq_bool c' c)
      | None => true
      end
  | None => false
  end.

Definition updateAnalysis (analysisId : string) (updates : Analysis.t) (state : State) : State :=
  match list_find (Analysis.has_id analysisId) (analysisHistory state) with
  | None => state
  | Some (analysisIndex, oldAnalysis) =>
      let updatedAnalysis := Analysis.spread oldAnalysis updates in
      let newHistory := <[analysisIndex := updatedAnalysis]> (analysisHistory state) in
      let updatedStatistics :=
        if confidence_changed oldAnalysis updates
        then
          {| totalAnalyses := totalAnalyses (statistics state);
             violationsDetected := violationsDetected (statistics state);
             averageConfidence := guarded_average (positive_confidences newHistory);
             analysisTypes := analysisTypes (statistics state) |}
        else statistics state in
      {| analysisHistory := newHistory;
         statistics := updatedStatistics;
         filters := filters state;
         selectedAnalysis :=
           if selected_has_id analysisId (selectedAnalysis state)
           then Some updatedAnalysis else selectedAnalysis state;
         isLoading := isLoading state;
         error := error state |}
  end.

Definition clearHistory (state : State) : State :=
  {| analysisHistory := [];
     statistics := emptyStatistics;
     filters := filters state;
     selectedAnalysis := None;
     isLoading := isLoading state;
     error := error state |}.

(** [{ ...state.filters, ...newFilters }] *)
Definition setFilters (newFilters : PartialFilters) (state : State) : State :=
  {| analysisHistory := analysisHistory state;
     statistics := statistics state;
     filters :=
       {| dateFrom := default (dateFrom (filters state)) (p_dateFrom newFilters);
          dateTo := default (dateTo (filters state)) (p_dateTo newFilters);
          violationType :=
            default (violationType (filters state)) (p_violationType newFilters);
          sortBy := default (sortBy (filters state)) (p_sortBy newFilters);
          sortOrder := default (sortOrder (filters state)) (p_sortOrder newFilters) |};
     selectedAnalysis := selectedAnalysis state;
     isLoading := isLoading state;
     error := error state |}.

Definition resetFilters (state : State) : State :=
  {| analysisHistory := analysisHistory state;
     statistics := statistics state;
     filters := defaultFilters;
     selectedAnalysis := selectedAnalysis state;
     isLoading := isLoading state;
     error := error state |}.

Definition setSelectedAnalysis (analysis : option Analysis.t) (state : State) : State :=
  {| analysisHistory := analysisHistory state;
     statistics := statistics state;
     filters := filters state;
     selectedAnalysis := analysis;
     isLoading := isLoading state;
     error := error state |}.

Definition clearSelectedAnalysis (state : State) : State :=
  setSelectedAnalysis None state.

Definition setLoading (loading : bool) (state : State) : State :=
  {| analysisHistory := analysisHistory state;
     statistics := statistics state;
     filters := filters state;
     selectedAnalysis := selectedAnalysis state;
     isLoading := loading;
     error := error state |}.

Definition setError (err : option string) (state : State) : State :=
  {| analysisHistory := analysisHistory state;
     statistics := statistics state;
     filters := filters state;
     selectedAnalysis := selectedAnalysis state;
     isLoading := isLoading state;
     error := err |}.

Definition clearError (state : State) : State := setError None state.

(** ** Getters *)

(** [Array.prototype.sort] with a comparison function: a stable insertion
    sort.  An element moves behind another one only when the comparison
    function returns a number greater than zero; [NaN] counts as zero. *)
Section Sort.
Context {A : Type} (comparefn : A → A → number).

Fixpoint sort_insert (x : A) (l : list A) : list A :=
  match l with
  | [] => [x]
  | y :: l' =>
      if number_pos (comparefn x y) then y :: sort_insert x l' else x :: l
  end.

Definition array_sort (l : list A) : list A := foldr sort_insert [] l.
End Sort.

(** [new Date(a) >= new Date(b)]; a missing timestamp is an invalid date,
    which compares false. *)
Definition date_ge (a b : option Z) : bool :=
  match a, b with
  | Some x, Some y => y <=? x
  | _, _ => false
  end.

(** [new Date(a).getTime() - new Date(b).getTime()] *)
Definition date_diff (a b : option Z) : number :=
  match a, b with
  | Some x, Some y => Fin (inject_Z (x - y))
  | _, _ => NaN
  end.

(** [a.violations?.some((v) => v.type === violationType)] *)
Definition has_violation_type (violationType : string) (a : Analysis.t) : bool :=
  match Analysis.violations a with
  | Some vs => existsb (λ v, bool_decide (Violation.type v = Some violationType)) vs
  | None => false
  end.

Section Getters.
(** The host's [String.prototype.localeCompare]. *)
Variable localeCompare : string → string → Z.

(** The comparison function handed to [sort]. *)
Definition compare_analyses (fs : Filters) (a b : Analysis.t) : number :=
  let comparison :=
    if String.eqb (sortBy fs) "confidence" then
      Fin (Analysis.confidence_or_0 a - Analysis.confidence_or_0 b)
    else if String.eqb (sortBy fs) "status" then
      Fin (inject_Z (localeCompare (default "" (Analysis.status a))
                                   (default "" (Analysis.status b))))
    else
      date_diff (Analysis.timestamp a) (Analysis.timestamp b) in
  if String.eqb (sortOrder fs) "asc" then comparison else number_opp comparison.

Definition getFilteredHistory (state : State) : list Analysis.t :=
  let fs := filters state in
  let filtered := analysisHistory state in
  let filtered :=
    match dateFrom fs with
    | Some d => List.filter (λ a, date_ge (Analysis.timestamp a) (Some d)) filtered
    | None => filtered
    end in
  let filtered :=
    match dateTo fs with
    | Some d => List.filter (λ a, date_ge (Some d) (Analysis.timestamp a)) filtered
    | None => filtered
    end in
  let filtered :=
    if String.eqb (violationType fs) "all" then filtered
    else List.filter (has_violation_type (violationType fs)) filtered in
  array_sort (compare_analyses fs) filtered.
End Getters.

Definition getStatistics (state : State) : Statistics := statistics state.

Definition getAnalysisById (id : string) (state : State) : option Analysis.t :=
  snd <$> list_find (Analysis.has_id id) (analysisHistory state).

Definition getAnalysisByType (type : string) (state : State) : list Analysis.t :=
  filter (λ a, Analysis.type a = Some type) (analysisHistory state).

(** [get().analysisHistory.slice(0, limit)], with [limit = 10] when the
    argument is left out.  [slice] counts a negative end from the end of the
    array. *)
Definition getRecentAnalyses (limit : option Z) (state : State) : list Analysis.t :=
  let limit := default 10 limit in
  let len := Z.of_nat (length (analysisHistory state)) in
  let final := if limit <? 0 then Z.max (len + limit) 0 else Z.min limit len in
  take (Z.to_nat final) (analysisHistory state).

(** The property name [summary[violation.type]] reads and writes: a missing
    type is the key ["undefined"]. *)
Definition summary_key (v : Violation.t) : string :=
  default "undefined" (Violation.type v).

(** [summary[violation.type] = (summary[violation.type] || 0) + 1] *)
Definition count_violation (summary : gmap string entry) (v : Violation.t) : gmap string entry :=
  object_set summary (summary_key v)
    (or_0_plus_1 (object_get summary (summary_key v))).

(** [analysis.violations?.forEach(...)] *)
Definition count_violations (summary : gmap string entry) (analysis : Analysis.t) : gmap string entry :=
  match Analysis.violations analysis with
  | Some vs => foldl count_violation summary vs
  | None => summary
  end.

Definition getViolationSummary (state : State) : gmap string entry :=
  foldl count_violations ∅ (analysisHistory state).

(** ** Sequences of calls *)

Inductive Action :=
  | AddAnalysis (e : Env) (analysis : Analysis.t)
  | RemoveAnalysis (analysisId : string)
  | UpdateAnalysis (analysisId : string) (updates : Analysis.t)
  | ClearHistory
  | SetFilters (newFilters : PartialFilters)
  | ResetFilters
  | SetSelectedAnalysis (analysis : option Analysis.t)
  | ClearSelectedAnalysis
  | SetLoading (loading : bool)
  | SetError (err : option string)
  | ClearError.

Definition dispatch (a : Action) (state : State) : State :=
  match a with
  | AddAnalysis e analysis => addAnalysis e analysis state
  | RemoveAnalysis analysisId => removeAnalysis analysisId state
  | UpdateAnalysis analysisId updates => updateAnalysis analysisId updates state
  | ClearHistory => clearHistory state
  | SetFilters newFilters => setFilters newFilters state
  | ResetFilters => resetFilters state
  | SetSelectedAnalysis analysis => setSelectedAnalysis analysis state
  | ClearSelectedAnalysis => clearSelectedAnalysis state
  | SetLoading loading => setLoading loading state
  | SetError err => setError err state
  | ClearError => clearError state
  end.

(** The states the store goes through: one per call, in order. *)
Fixpoint trace (calls : list Action) (state : State) : list State :=
  match calls with
  | [] => []
  | a :: calls' => dispatch a state :: trace calls' (dispatch a state)
  end.

(** The state after the last call. *)
Definition run (calls : list Action) (state : State) : State :=
  foldl (λ s a, dispatch a s) state calls.

(** ** Properties of a state *)

(** [statistics.totalAnalyses == length(analysisHistory)] *)
Definition total_consistent (state : State) : Prop :=
  totalAnalyses (statistics state) = Z.of_nat (length (analysisHistory state)).

(** [sum(len(r.violations) for r in analysisHistory)] *)
Definition violation_count (history : list Analysis.t) : Z :=
  foldr (λ a n, Analysis.violations_length a + n) 0 history.

(** [statistics.violationsDetected == sum(len(r.violations))] *)
Definition violations_consistent (state : State) : Prop :=
  violationsDetected (statistics state) = violation_count (analysisHistory state).

(** No two records of the history share an id. *)
Definition unique_ids (state : State) : Prop :=
  NoDup (Analysis.id <$> analysisHistory state).

#[global] Instance unique_ids_dec state : Decision (unique_ids state).
Proof. unfold unique_ids. apply _. Defined.

(** The call is not an [updateAnalysis] whose updates carry a [violations]
    key. *)
Definition keeps_violations (a : Action) : bool :=
  match a with
  | UpdateAnalysis _ updates =>
      match Analysis.violations updates with
      | Some _ => false
      | None => true
      end
  | _ => true
  end.

(** The two counters are not negative, and neither is any type bucket whose
    key is not a name inherited from [Object.prototype]. *)
Definition counters_nonneg (state : State) : Prop :=
  0 ≤ totalAnalyses (statistics state) ∧
  0 ≤ violationsDetected (statistics state) ∧
  map_Forall (λ k v, inherited k = false → ∃ n, v = Count n ∧ 0 ≤ n)
    (analysisTypes (statistics state)).


(** The own property is the number [n], an absent one reading as 0. *)
Definition reads_as (v : option entry) (n : Z) : Prop :=
  match v with
  | None => n = 0
  | Some (Count m) => m = n
  | Some _ => False
  end.

(** The mean of the positive confidences of a history, [0] when there is
    none: the value the statistics are meant to hold. *)
Definition mean_positive_confidence (history : list Analysis.t) : number :=
  match positive_confidences history with
  | [] => Fin 0
  | cs => Fin (fold_left Qplus cs 0%Q / inject_Z (Z.of_nat (length cs)))
  end.

(** The call is not an [updateAnalysis] whose updates carry a [type] key. *)
Definition keeps_types (a : Action) : bool :=
  match a with
  | UpdateAnalysis _ updates =>
      match Analysis.type updates with
      | Some _ => false
      | None => true
      end
  | _ => true
  end.

(** [statistics.analysisTypes[t]], read as 0 when the key is absent, is the
    number of records [getAnalysisByType(t)] returns, for every label [t]
    that [addAnalysis] counts (a truthy one) and that is not a name inherited
    from [Object.prototype]. *)
Definition types_consistent (state : State) : Prop :=
  ∀ t, truthy t = true → inherited t = false →
    reads_as (analysisTypes (statistics state) !! t)
      (Z.of_nat (length (getAnalysisByType t state))).

(** Every record of the history has an id and a timestamp. *)
Definition records_identified (state : State) : Prop :=
  Forall (λ a, is_Some (Analysis.id a) ∧ is_Some (Analysis.timestamp a))
    (analysisHistory state).

(** The call is one of the four that write the history or the statistics. *)
Definition writes_history (a : Action) : bool :=
  match a with
  | AddAnalysis _ _ | RemoveAnalysis _ | UpdateAnalysis _ _ | ClearHistory => true
  | _ => false
  end.

(** How many violations of the history are counted under the key [k]. *)
Definition violations_under (k : string) (history : list Analysis.t) : Z :=
  foldr
    (λ a n,
       Z.of_nat
         (length (filter (λ v, summary_key v = k)
                    (default [] (Analysis.violations a)))) + n)
    0 history.

(** [{ ...p, ...q }] on two arguments of [setFilters]. *)
Definition merge_filters (p q : PartialFilters) : PartialFilters :=
  {| p_dateFrom := override (p_dateFrom q) (p_dateFrom p);
     p_dateTo := override (p_dateTo q) (p_dateTo p);
     p_violationType := override (p_violationType q) (p_violationType p);
     p_sortBy := override (p_sortBy q) (p_sortBy p);
     p_sortOrder := override (p_sortOrder q) (p_sortOrder p) |}.

(** Both records have a timestamp and the first is not after the second. *)
Definition not_after (a b : Analysis.t) : Prop :=
  ∃ x y, Analysis.timestamp a = Some x ∧ Analysis.timestamp b = Some y ∧ x ≤ y.

(** The confidence of the first record, 0 when it has none, is at most that
    of the second. *)
Definition confidence_le (a b : Analysis.t) : Prop :=
  (Analysis.confidence_or_0 a <= Analysis.confidence_or_0 b)%Q.

(** The status of the first record, [''] when it has none, does not come
    after that of the second in the host's collation. *)
Definition status_le (localeCompare : string → string → Z) (a b : Analysis.t) : Prop :=
  localeCompare (default "" (Analysis.status a)) (default "" (Analysis.status b)) ≤ 0.

(** The sum of the numbers of a summary. *)
Definition summary_total (summary : gmap string entry) : Z :=
  map_fold
    (λ _ v total, match v with Count n => n + total | _ => total end)
    0 summary.

(** What the summary holds under a key after [n] violations were counted
    under it: nothing when there was none, and nothing ever under
    [__proto__]; under another inherited name the text of the member followed
    by [n] characters ['1']; under any other key the number [n]. *)
Definition summary_entry (k : string) (n : Z) : option entry :=
  if n =? 0 then None
  else if String.eqb k "__proto__" then None
  else if inherited k then Some (Inherited (Z.to_nat n))
  else Some (Count n).

(** No violation of the history is counted under a name inherited from
    [Object.prototype]. *)
Definition plain_violation_types (state : State) : Prop :=
  Forall
    (λ a, Forall (λ v, inherited (summary_key v) = false)
            (default [] (Analysis.violations a)))
    (analysisHistory state).

(** The selection follows X, and a selected record that is not X stays
    selected. *)
Definition selection_follows_value
    (state : State) (X : Analysis.t) (analysisId : string) (updates : Analysis.t) : Prop :=
  (selectedAnalysis state = Some X →
   selectedAnalysis (removeAnalysis analysisId state) = None ∧
   selectedAnalysis (updateAnalysis analysisId updates state)
     = Some (Analysis.spread X updates)) ∧
  (∀ Y, selectedAnalysis state = Some Y → Y ≠ X →
     selectedAnalysis (removeAnalysis analysisId state) = Some Y ∧
     selectedAnalysis (updateAnalysis analysisId updates state) = Some Y).

(** ** The claims the code does not meet, as they are worded *)

(** The record [addAnalysis] inserts sits at the front and carries the id and
    the timestamp the store made. *)
Definition inserted_with_store_identity
    (e : Env) (analysis : Analysis.t) (state : State) : Prop :=
  ∃ newAnalysis,
    analysisHistory (addAnalysis e analysis state)
      = newAnalysis :: analysisHistory state ∧
    Analysis.id newAnalysis = Some (generated_id e) ∧
    Analysis.timestamp newAnalysis = Some (new_date e).

(** The record [updateAnalysis] rewrites keeps its id and its timestamp. *)
Definition update_retains_identity
    (analysisId : string) (updates : Analysis.t) (state : State) : Prop :=
  ∀ k old,
    list_find (Analysis.has_id analysisId) (analysisHistory state) = Some (k, old) →
    ∃ new,
      analysisHistory (updateAnalysis analysisId updates state) !! k = Some new ∧
      Analysis.id new = Analysis.id old ∧
      Analysis.timestamp new = Analysis.timestamp old.

(** [removeAnalysis X] drops every record with id [X], takes exactly one off
    [totalAnalyses] and exactly the violation count of the first such record
    off [violationsDetected]. *)
Definition removal_decrements_exactly (X : string) (state : State) : Prop :=
  ∃ k first,
    list_find (Analysis.has_id X) (analysisHistory state) = Some (k, first) ∧
    analysisHistory (removeAnalysis X state)
      = filter (λ a, ¬ Analysis.has_id X a) (analysisHistory state) ∧
    totalAnalyses (statistics (removeAnalysis X state))
      = totalAnalyses (statistics state) - 1 ∧
    violationsDetected (statistics (removeAnalysis X state))
      = violationsDetected (statistics state) - Analysis.violations_length first.

(** The same with both differences floored at zero, as [Math.max(0, ...)]
    has it. *)
Definition removal_decrements_floored (X : string) (state : State) : Prop :=
  ∃ k first,
    list_find (Analysis.has_id X) (analysisHistory state) = Some (k, first) ∧
    analysisHistory (removeAnalysis X state)
      = filter (λ a, ¬ Analysis.has_id X a) (analysisHistory state) ∧
    Forall (λ a, ¬ Analysis.has_id X a) (analysisHistory (removeAnalysis X state)) ∧
    totalAnalyses (statistics (removeAnalysis X state))
      = Z.max 0 (totalAnalyses (statistics state) - 1) ∧
    violationsDetected (statistics (removeAnalysis X state))
      = Z.max 0 (violationsDetected (statistics state)
                 - Analysis.violations_length first).

(** ** Concrete inputs *)

Module Sample.
Definition env1 : Env :=
  {| date_now := 1700000000000; random_suffix := "k3j9x0a1b";
     new_date := 1700000000000 |}.

Definition env2 : Env :=
  {| date_now := 1700000000005; random_suffix := "zz81mq0pd";
     new_date := 1700000000006 |}.

(** [{ id: i }] *)
Definition with_id (i : string) : Analysis.t :=
  Analysis.mk (Some i) None None None None None ∅.

(** [{ timestamp: t }] *)
Definition with_timestamp (t : Z) : Analysis.t :=
  Analysis.mk None (Some t) None None None None ∅.

(** [{ confidence: c }] *)
Definition with_confidence (c : Q) : Analysis.t :=
  Analysis.mk None None None (Some c) None None ∅.

(** [{ violations: vs }] *)
Definition with_violations (vs : list Violation.t) : Analysis.t :=
  Analysis.mk None None None None None (Some vs) ∅.

(** [{ type: 'image', confidence: 0.8, violations: [{ type: 'nudity' }] }] *)
Definition image_report : Analysis.t :=
  Analysis.mk None None (Some "image") (Some (8 # 10)%Q) None
    (Some [Violation.mk (Some "nudity")]) ∅.

(** [{ type: 'text', confidence: 0.5 }] *)
Definition text_report : Analysis.t :=
  Analysis.mk None None (Some "text") (Some (5 # 10)%Q) (Some "pass") None ∅.

(** [{ id: 'x', violations: [{ type: 'spam' }] }] *)
Definition x_with_violation : Analysis.t :=
  Analysis.mk (Some "x") None None None None
    (Some [Violation.mk (Some "spam")]) ∅.

(** Two insertions under the same caller-chosen id, then its removal. *)
Definition twice_x : list Action :=
  [AddAnalysis env1 x_with_violation; AddAnalysis env2 (with_id "x")].

Definition twice_x_removed : list Action :=
  twice_x ++ [RemoveAnalysis "x"].

(** An insertion, then an update that hands the record a list of
    violations. *)
Definition violations_replaced : list Action :=
  [AddAnalysis env1 Analysis.empty;
   UpdateAnalysis (generated_id env1)
     (with_violations [Violation.mk (Some "spam")])].

(** Two records with id [x], the first of them holding more violations
    than the statistics have counted. *)
Definition twice_x_updated : list Action :=
  twice_x ++
  [UpdateAnalysis "x"
     (with_violations [Violation.mk (Some "spam"); Violation.mk (Some "hate")])].

(** Two ordinary insertions, an update of the confidence of the first
    record, a removal, a reset. *)
Definition ordinary_calls : list Action :=
  [AddAnalysis env1 image_report;
   AddAnalysis env2 text_report;
   UpdateAnalysis (generated_id env1) (with_confidence (6 # 10)%Q);
   RemoveAnalysis (generated_id env2);
   RemoveAnalysis "unknown";
   ClearHistory].

(** A store with two records, the first of them selected, an error
    reported and loading under way. *)
Definition busy_state : State :=
  run [AddAnalysis env1 image_report;
       AddAnalysis env2 text_report;
       SetSelectedAnalysis (Some (newAnalysis env1 image_report));
       SetFilters (mkPartialFilters None None None (Some "status") None);
       SetLoading true;
       SetError (Some "fetch failed")]
    initialState.



(** Two records under the id [x], the older one selected. *)
Definition older_x_selected : State :=
  run (twice_x ++ [SetSelectedAnalysis (Some (newAnalysis env1 x_with_violation))])
    initialState.

(** One record, inserted under the id [x]. *)
Definition only_x : State :=
  run [AddAnalysis env1 (with_id "x")] initialState.

(** Three records inserted at growing instants, with violations in the
    first and the last. *)
Definition three_reports : State :=
  run [AddAnalysis env1 image_report;
       AddAnalysis env2 text_report;
       AddAnalysis (mkEnv 1700000000100 "q7w8e9r0t" 1700000000100)
         (Analysis.mk None None (Some "text") (Some (7 # 10)%Q) (Some "fail")
            (Some [Violation.mk (Some "spam"); Violation.mk None]) ∅)]
    initialState.

(** Code-unit order of two strings, as a [localeCompare]: the order every
    locale gives to words of lower-case ASCII letters. *)
Definition code_unit_compare (a b : string) : Z :=
  match String.compare a b with
  | Lt => -1
  | Eq => 0
  | Gt => 1
  end.
End Sample.

(** The history of the filter-and-sort scenario, under the given sort key and
    direction and no other filter. *)
Module Scenario.
Definition record1 (T1 : Z) : Analysis.t :=
  Analysis.mk (Some "1") (Some T1) None (Some (9 # 10)%Q) (Some "pass") None ∅.

Definition record2 (T2 : Z) : Analysis.t :=
  Analysis.mk (Some "2") (Some T2) None (Some (4 # 10)%Q) (Some "fail") None ∅.

Definition state (T1 T2 : Z) (by_key order : string) : State :=
  setFilters
    {| p_dateFrom := None; p_dateTo := None; p_violationType := None;
       p_sortBy := Some by_key; p_sortOrder := Some order |}
    {| analysisHistory := [record1 T1; record2 T2];
       statistics := emptyStatistics;
       filters := defaultFilters;
       selectedAnalysis := None;
       isLoading := false;
       error := None |}.
End Scenario.

(** * Theorems *)

(** ** Lists of records *)

Lemma violation_count_nonneg history : 0 ≤ violation_count history.
Proof.
  induction history as [|a history IH]; simpl; [lia|].
  unfold Analysis.violations_length. destruct (Analysis.violations a); lia.
Qed.

Lemma violation_count_elem a history :
  a ∈ history → Analysis.violations_length a ≤ violation_count history.
Proof.
  induction 1 as [a history|a b history _ IH]; simpl.
  - pose proof (violation_count_nonneg history). lia.
  - assert (0 ≤ Analysis.violations_length b)
      by (unfold Analysis.violations_length; destruct (Analysis.violations b); lia).
    lia.
Qed.

(** Filtering out an id that no record carries changes nothing. *)
Lemma filter_absent_id analysisId (history : list Analysis.t) :
  Some analysisId ∉ Analysis.id <$> history →
  filter (λ a, ¬ Analysis.has_id analysisId a) history = history.
Proof.
  induction history as [|a history IH]; intros Hnotin; [done|].
  rewrite fmap_cons, not_elem_of_cons in Hnotin. destruct Hnotin as [Hne Hnotin].
  rewrite filter_cons_True; [by rewrite IH|].
  unfold Analysis.has_id. congruence.
Qed.

(** With pairwise distinct ids the filter of [removeAnalysis] takes out the
    one record that [find] returned. *)
Lemma filter_unique_id analysisId (history : list Analysis.t) k found :
  NoDup (Analysis.id <$> history) →
  list_find (Analysis.has_id analysisId) history = Some (k, found) →
  let rest := filter (λ a, ¬ Analysis.has_id analysisId a) history in
  Z.of_nat (length rest) = Z.of_nat (length history) - 1 ∧
  violation_count rest = violation_count history - Analysis.violations_length found.
Proof.
  revert k. induction history as [|a history IH]; intros k Hnodup Hfind; [done|].
  rewrite fmap_cons in Hnodup. apply NoDup_cons in Hnodup as [Hnotin Hnodup].
  cbn in Hfind. case_decide as Hid.
  - simplify_eq. unfold Analysis.has_id in Hid. rewrite Hid in Hnotin.
    cbv zeta. rewrite filter_cons_False by (intros Hn; by apply Hn).
    rewrite (filter_absent_id _ _ Hnotin). simpl. lia.
  - apply fmap_Some in Hfind as ([k' found'] & Hfind & ?). simplify_eq/=.
    destruct (IH _ Hnodup Hfind) as [Hlen Hcount].
    rewrite filter_cons_True by done. simpl in *. lia.
Qed.

(** Overwriting a record by one with as many violations keeps the sum. *)
Lemma violation_count_insert (history : list Analysis.t) k old new :
  history !! k = Some old →
  Analysis.violations_length new = Analysis.violations_length old →
  violation_count (<[k := new]> history) = violation_count history.
Proof.
  revert k. induction history as [|a history IH]; intros [|k] Hk Hlen; simplify_eq/=.
  - lia.
  - by rewrite (IH k).
Qed.

Lemma spread_violations_length old updates :
  Analysis.violations updates = None →
  Analysis.violations_length (Analysis.spread old updates)
    = Analysis.violations_length old.
Proof. intros Hnone. unfold Analysis.violations_length. simpl. by rewrite Hnone. Qed.

Lemma spread_fresh_violations_length base analysis :
  Analysis.violations base = None →
  Analysis.violations_length (Analysis.spread base analysis)
    = Analysis.violations_length analysis.
Proof.
  intros Hnone. unfold Analysis.violations_length. simpl.
  destruct (Analysis.violations analysis); simpl; [done|]. by rewrite Hnone.
Qed.

(** ** One call *)

(** A property kept by every call from states that satisfy a side condition
    holds after each call of a sequence that stays within the side
    condition. *)
Lemma trace_invariant (P side : State → Prop) (ok : Action → bool) calls state :
  (∀ a s, side s → P s → ok a → P (dispatch a s)) →
  side state → P state →
  Forall side (trace calls state) → Forall ok calls →
  Forall P (trace calls state).
Proof.
  intros Hstep. revert state.
  induction calls as [|a calls IH]; intros state Hside HP Htrace Hok; simpl in *.
  - constructor.
  - apply Forall_cons in Htrace as [Hside' Htrace].
    apply Forall_cons in Hok as [Ha Hok].
    assert (P (dispatch a state)) by auto.
    constructor; auto.
Qed.

(** The state [run] reaches is the last one of the [trace]. *)
Lemma trace_last calls state :
  last (trace calls state) = match calls with [] => None | _ => Some (run calls state) end.
Proof.
  revert state. induction calls as [|a calls IH]; intros state; [done|].
  simpl trace. unfold run. simpl foldl. destruct calls as [|b calls]; [done|].
  specialize (IH (dispatch a state)). simpl trace in *.
  rewrite last_cons, IH. done.
Qed.

Lemma dispatch_total_consistent a state :
  unique_ids state → total_consistent state → total_consistent (dispatch a state).
Proof.
  unfold unique_ids, total_consistent.
  intros Hnodup Htotal. destruct a; simpl; try done.
  - unfold addAnalysis. simpl. lia.
  - unfold removeAnalysis.
    destruct (list_find _ _) as [[k found]|] eqn:Hfind; [|done]. simpl.
    destruct (filter_unique_id _ _ _ _ Hnodup Hfind) as [Hlen _]. lia.
  - unfold updateAnalysis.
    destruct (list_find _ _) as [[k found]|] eqn:Hfind; [|done]. simpl.
    rewrite length_insert. by destruct (confidence_changed _ _).
Qed.

Lemma dispatch_violations_consistent a state :
  unique_ids state → violations_consistent state → keeps_violations a →
  violations_consistent (dispatch a state).
Proof.
  unfold unique_ids, violations_consistent.
  intros Hnodup Hsum Hkeeps. destruct a; simpl; try done.
  - unfold addAnalysis, newAnalysis. simpl. rewrite Hsum.
    rewrite spread_fresh_violations_length by done. lia.
  - unfold removeAnalysis.
    destruct (list_find _ _) as [[k found]|] eqn:Hfind; [|done]. simpl.
    destruct (filter_unique_id _ _ _ _ Hnodup Hfind) as [_ Hcount].
    rewrite Hcount, Hsum.
    apply list_find_Some in Hfind as (Hk & _ & _).
    apply list_elem_of_lookup_2, violation_count_elem in Hk. lia.
  - unfold updateAnalysis.
    destruct (list_find _ _) as [[k found]|] eqn:Hfind; [|done]. simpl.
    apply list_find_Some in Hfind as (Hk & _ & _).
    simpl in Hkeeps. destruct (Analysis.violations updates) eqn:Hupdates; [done|].
    rewrite (violation_count_insert _ _ found) by
      (done || by apply spread_violations_length).
    by destruct (confidence_changed _ _).
Qed.

Lemma initialState_counters_nonneg : counters_nonneg initialState.
Proof. repeat split; simpl; [lia..|]. apply map_Forall_empty. Qed.

(** ** Reading and writing a plain object *)

Lemma inherited_proto : inherited "__proto__" = true.
Proof. reflexivity. Qed.

Lemma object_get_plain o k : inherited k = false → object_get o k = o !! k.
Proof. intros Hk. unfold object_get. rewrite Hk. by destruct (o !! k). Qed.

Lemma object_set_plain o k v : inherited k = false → object_set o k v = <[k := v]> o.
Proof.
  intros Hk. unfold object_set.
  destruct (String.eqb_spec k "__proto__") as [->|]; [|done].
  by rewrite inherited_proto in Hk.
Qed.

Lemma object_set_lookup_ne o k v j : k ≠ j → object_set o k v !! j = o !! j.
Proof.
  intros Hne. unfold object_set.
  destruct (_ && _); [done|]. by rewrite lookup_insert_ne.
Qed.

Lemma object_set_Forall (P : string → entry → Prop) o k v :
  map_Forall P o → P k v → map_Forall P (object_set o k v).
Proof.
  intros Ho Hv. unfold object_set.
  destruct (_ && _); [done|]. by apply map_Forall_insert_2.
Qed.

Lemma dispatch_counters_nonneg a state :
  counters_nonneg state → counters_nonneg (dispatch a state).
Proof.
  unfold counters_nonneg. intros (Htotal & Hdetected & Htypes).
  destruct a; simpl; try done.
  - unfold addAnalysis. simpl. split_and!.
    + lia.
    + unfold Analysis.violations_length. destruct (Analysis.violations analysis); lia.
    + destruct (Analysis.type analysis) as [ty|]; [|done].
      destruct (truthy ty); [|done].
      apply map_Forall_insert_2; [|done].
      intros Hplain. rewrite object_get_plain by done.
      destruct (analysisTypes (statistics state) !! ty) as [v|] eqn:Hty; simpl.
      * destruct (map_Forall_lookup_1 _ _ _ _ Htypes Hty Hplain) as (n & -> & Hn).
        exists (n + 1). split; [done|lia].
      * exists 1. split; [done|lia].
  - unfold removeAnalysis.
    destruct (list_find _ _) as [[k found]|]; [|done]. simpl. split_and!; [lia..|].
    destruct (Analysis.type found) as [ty|]; [|done].
    destruct (truthy ty); [|done]. simpl.
    destruct (entry_truthy _) eqn:Htruthy; [|done].
    apply object_set_Forall; [done|].
    intros Hplain. rewrite object_get_plain in Htruthy |- * by done.
    destruct (analysisTypes (statistics state) !! ty) as [v|] eqn:Hty; [|done].
    destruct (map_Forall_lookup_1 _ _ _ _ Htypes Hty Hplain) as (n & -> & Hn).
    simpl in *. exists (n - 1). split; [done|].
    destruct (Z.eqb_spec n 0); [done|lia].
  - unfold updateAnalysis.
    destruct (list_find _ _) as [[k found]|]; [|done]. simpl.
    by destruct (confidence_changed _ _).
Qed.

(** ** Aggregate statistics along a sequence of calls *)

(** C1, as amended.  For every sequence of store calls starting from the
    initial empty state along which no two records of [analysisHistory]
    share an id, after each call [statistics.totalAnalyses] equals the length
    of [analysisHistory]. *)
Theorem total_matches_history_length calls :
  Forall unique_ids (trace calls initialState) →
  Forall total_consistent (trace calls initialState).
Proof.
  intros Hunique.
  apply (trace_invariant total_consistent unique_ids (λ _, true)); try done.
  - intros a s Hs Htotal _. by apply dispatch_total_consistent.
  - unfold unique_ids. simpl. constructor.
  - by apply Forall_true.
Qed.

(** The invariant of [totalAnalyses] along [Sample.ordinary_calls], whose
    records have distinct generated ids. *)
Lemma total_matches_history_length_witness :
  Forall unique_ids (trace Sample.ordinary_calls initialState) ∧
  Forall total_consistent (trace Sample.ordinary_calls initialState).
Proof.
  assert (Forall unique_ids (trace Sample.ordinary_calls initialState)) as Hunique
    by (apply (bool_decide_unpack _); vm_compute; reflexivity).
  split; [exact Hunique|].
  exact (total_matches_history_length Sample.ordinary_calls Hunique).
Defined.

(** C1 as it is worded fails: a second record inserted under the id of the
    first, then one removal by that id, empties the history and leaves
    [totalAnalyses] at 1. *)
Lemma total_differs_after_shared_id_removal :
  ¬ total_consistent (run Sample.twice_x_removed initialState).
Proof. unfold total_consistent. vm_compute. discriminate. Qed.

(** C2, as amended.  For every sequence of store calls starting from the
    initial empty state along which no two records of [analysisHistory]
    share an id and in which no [updateAnalysis] call carries a [violations]
    key, after each call [statistics.violationsDetected] equals the sum of the
    lengths of the records' violations lists. *)
Theorem violations_match_history calls :
  Forall unique_ids (trace calls initialState) →
  Forall keeps_violations calls →
  Forall violations_consistent (trace calls initialState).
Proof.
  intros Hunique Hkeeps.
  apply (trace_invariant violations_consistent unique_ids keeps_violations);
    try done.
  - intros a s Hs Hsum Ha. by apply dispatch_violations_consistent.
  - unfold unique_ids. simpl. constructor.
Qed.

(** The invariant of [violationsDetected] along [Sample.ordinary_calls]: its
    one update carries a confidence only. *)
Lemma violations_match_history_witness :
  Forall unique_ids (trace Sample.ordinary_calls initialState) ∧
  Forall keeps_violations Sample.ordinary_calls ∧
  Forall violations_consistent (trace Sample.ordinary_calls initialState).
Proof.
  assert (Forall unique_ids (trace Sample.ordinary_calls initialState)) as Hunique
    by (apply (bool_decide_unpack _); vm_compute; reflexivity).
  assert (Forall keeps_violations Sample.ordinary_calls) as Hkeeps
    by (apply (bool_decide_unpack _); vm_compute; reflexivity).
  split_and!; [exact Hunique|exact Hkeeps|].
  exact (violations_match_history Sample.ordinary_calls Hunique Hkeeps).
Defined.

(** C2 as it is worded fails twice over: an update that hands a record a
    violations list leaves [violationsDetected] where it was, and a removal
    by an id that two records share subtracts the violations of the first of
    them only. *)
Lemma violations_differ_after_update_or_shared_id :
  ¬ violations_consistent (run Sample.violations_replaced initialState) ∧
  ¬ violations_consistent (run Sample.twice_x_removed initialState).
Proof. unfold violations_consistent. split; vm_compute; discriminate. Qed.



(** ** Average confidence *)

Lemma length_succ_nonzero (n : nat) :
  Qeq_bool (inject_Z (Z.of_nat (S n))) 0 = false.
Proof. reflexivity. Qed.

Lemma guarded_average_mean history :
  guarded_average (positive_confidences history) = mean_positive_confidence history.
Proof.
  unfold guarded_average, mean_positive_confidence, average, number_div.
  destruct (positive_confidences history) as [|c cs]; [done|].
  change (length (c :: cs)) with (S (length cs)).
  by rewrite length_succ_nonzero.
Qed.

(** X21.  [removeAnalysis] leaves the mean of the positive confidences that
    remain, 0 when none does. *)
Lemma removeAnalysis_average analysisId state :
  is_Some (list_find (Analysis.has_id analysisId) (analysisHistory state)) →
  averageConfidence (statistics (removeAnalysis analysisId state))
    = mean_positive_confidence (analysisHistory (removeAnalysis analysisId state)).
Proof.
  intros [[k found] Hfind]. unfold removeAnalysis. rewrite Hfind. simpl.
  rewrite guarded_average_mean.
  by destruct (filter _ _).
Qed.

(** X22.  An [updateAnalysis] that changes a confidence leaves the mean of the
    positive confidences of the updated history, 0 when there is none. *)
Lemma updateAnalysis_average analysisId updates state k old :
  list_find (Analysis.has_id analysisId) (analysisHistory state) = Some (k, old) →
  confidence_changed old updates = true →
  averageConfidence (statistics (updateAnalysis analysisId updates state))
    = mean_positive_confidence (analysisHistory (updateAnalysis analysisId updates state)).
Proof.
  intros Hfind Hchanged. unfold updateAnalysis. rewrite Hfind, Hchanged. simpl.
  apply guarded_average_mean.
Qed.

(** X24.  [addAnalysis] divides by the number of positive confidences without
    looking at it: when there is none the result is 0 / 0. *)
Lemma addAnalysis_average_NaN e analysis state c :
  Analysis.confidence analysis = Some c →
  Qpositive c = false →
  positive_confidences (analysisHistory state) = [] →
  averageConfidence (statistics (addAnalysis e analysis state)) = NaN.
Proof.
  intros Hc Hneg Hnone. unfold addAnalysis. simpl. rewrite Hc.
  rewrite List.filter_app. fold (positive_confidences (analysisHistory state)).
  rewrite Hnone. simpl. by rewrite Hneg.
Qed.

Lemma fold_left_Qplus_from (cs : list Q) (a : Q) :
  (fold_left Qplus cs a == a + fold_left Qplus cs 0)%Q.
Proof.
  revert a. induction cs as [|c cs IH]; intros a; simpl.
  - ring.
  - rewrite IH, (IH (0 + c)%Q). ring.
Qed.

Lemma Qpositive_nonzero c : Qpositive c = true → Qeq_bool c 0 = false.
Proof.
  unfold Qpositive. intros Hpos%negb_true_iff.
  destruct (Qeq_bool c 0) eqn:Heq; [|done].
  apply Qeq_bool_iff in Heq. rewrite <- Hpos. symmetry.
  apply Qle_bool_iff. rewrite Heq. apply Qle_refl.
Qed.

(** X23.  With at least one positive confidence in the resulting history,
    [addAnalysis] leaves their mean. *)
Lemma addAnalysis_average e analysis state c :
  Analysis.confidence analysis = Some c →
  positive_confidences (analysisHistory (addAnalysis e analysis state)) ≠ [] →
  ∃ q q',
    averageConfidence (statistics (addAnalysis e analysis state)) = Fin q ∧
    mean_positive_confidence (analysisHistory (addAnalysis e analysis state)) = Fin q' ∧
    (q == q')%Q.
Proof.
  intros Hc.
  assert (Analysis.confidence_or_0 (newAnalysis e analysis)
          = if Qeq_bool c 0 then 0%Q else c) as Hnew
    by (unfold Analysis.confidence_or_0, newAnalysis; simpl; by rewrite Hc).
  unfold mean_positive_confidence, addAnalysis. simpl. rewrite Hc.
  unfold positive_confidences. simpl. rewrite Hnew, List.filter_app. simpl.
  set (cs := List.filter Qpositive (map Analysis.confidence_or_0 (analysisHistory state))).
  destruct (Qpositive c) eqn:Hpos.
  - rewrite (Qpositive_nonzero _ Hpos), Hpos. intros _.
    unfold average, number_div.
    rewrite length_app, Nat.add_1_r, length_succ_nonzero.
    do 2 eexists. split_and!; [done..|].
    rewrite fold_left_app. simpl.
    rewrite (fold_left_Qplus_from cs (0 + c)).
    apply Qdiv_comp; [ring|reflexivity].
  - assert (Qpositive (if Qeq_bool c 0 then 0%Q else c) = false) as ->
      by (by destruct (Qeq_bool c 0)).
    rewrite app_nil_r. intros Hsome.
    destruct cs as [|c' cs'] eqn:Hcs; [done|].
    unfold average, number_div.
    change (length (c' :: cs')) with (S (length cs')).
    rewrite length_succ_nonzero. do 2 eexists. split_and!; [done..|]. reflexivity.
Qed.

(** C3.  The claim asks for 0 when no record has a positive confidence.
    [addAnalysis] of a record with confidence 0 into the empty store leaves
    [averageConfidence] at [NaN], where the mean of the positive confidences of
    the resulting history is 0. *)
Theorem addAnalysis_zero_confidence_average :
  averageConfidence
    (statistics (addAnalysis Sample.env1 (Sample.with_confidence 0) initialState))
    = NaN ∧
  mean_positive_confidence
    (analysisHistory (addAnalysis Sample.env1 (Sample.with_confidence 0) initialState))
    = Fin 0.
Proof. split; reflexivity. Qed.

(** ** Identity of records *)

(** C4, as amended.  For every partialRecord passed to [addAnalysis], the
    record inserted is placed at the front of [analysisHistory]; its id is
    the partialRecord's own id when it carries one and the store-generated id
    otherwise, and its timestamp is the partialRecord's own timestamp when it
    carries one and the store-assigned current timestamp otherwise. *)
Theorem addAnalysis_prepends e analysis state :
  analysisHistory (addAnalysis e analysis state)
    = newAnalysis e analysis :: analysisHistory state ∧
  Analysis.id (newAnalysis e analysis)
    = Some (default (generated_id e) (Analysis.id analysis)) ∧
  Analysis.timestamp (newAnalysis e analysis)
    = Some (default (new_date e) (Analysis.timestamp analysis)).
Proof.
  split; [reflexivity|]. simpl.
  by destruct (Analysis.id analysis), (Analysis.timestamp analysis).
Qed.

(** C4 as it is worded fails: a partialRecord that carries an id, or a
    timestamp, keeps its own. *)
Lemma addAnalysis_keeps_caller_identity :
  ¬ inserted_with_store_identity Sample.env1 (Sample.with_id "x") initialState ∧
  ¬ inserted_with_store_identity Sample.env1 (Sample.with_timestamp 0) initialState.
Proof.
  split; intros (newAnalysis & Hfront & Hid & Htime);
    unfold addAnalysis in Hfront; simpl in Hfront; simplify_eq.
Qed.

(** C5.  When no record of [analysisHistory] has the given id,
    [removeAnalysis] and [updateAnalysis] return the state they were given:
    history, statistics, filters, selection, loading flag and error are all
    unchanged. *)
Theorem unknown_id_leaves_state analysisId updates state :
  Forall (λ a, ¬ Analysis.has_id analysisId a) (analysisHistory state) →
  removeAnalysis analysisId state = state ∧
  updateAnalysis analysisId updates state = state.
Proof.
  intros Hunknown.
  assert (list_find (Analysis.has_id analysisId) (analysisHistory state) = None)
    as Hfind by (by apply list_find_None).
  unfold removeAnalysis, updateAnalysis. by rewrite Hfind.
Qed.

(** No record of [Sample.busy_state] has the id [unknown]. *)
Lemma unknown_id_leaves_state_witness :
  Forall (λ a, ¬ Analysis.has_id "unknown" a) (analysisHistory Sample.busy_state) ∧
  removeAnalysis "unknown" Sample.busy_state = Sample.busy_state ∧
  updateAnalysis "unknown" (Sample.with_confidence 1) Sample.busy_state
    = Sample.busy_state.
Proof.
  assert (Forall (λ a, ¬ Analysis.has_id "unknown" a)
            (analysisHistory Sample.busy_state)) as Hunknown
    by (apply (bool_decide_unpack _); vm_compute; reflexivity).
  split; [exact Hunknown|].
  exact (unknown_id_leaves_state "unknown" (Sample.with_confidence 1)
           Sample.busy_state Hunknown).
Defined.

(** C6, as amended.  For every record in [analysisHistory] and every updates
    object that contains neither an id nor a timestamp key, the record
    [updateAnalysis] rewrites retains the id and the timestamp it had before
    the update. *)
Theorem updateAnalysis_keeps_identity analysisId updates state :
  Analysis.id updates = None →
  Analysis.timestamp updates = None →
  update_retains_identity analysisId updates state.
Proof.
  intros Hid Htime k old Hfind. unfold updateAnalysis. rewrite Hfind. simpl.
  apply list_find_Some in Hfind as (Hk & _ & _).
  exists (Analysis.spread old updates). split_and!.
  - apply list_lookup_insert_eq. by eapply lookup_lt_Some.
  - simpl. by rewrite Hid.
  - simpl. by rewrite Htime.
Qed.

(** An update of the confidence of the record [x]. *)
Lemma updateAnalysis_keeps_identity_witness :
  Analysis.id (Sample.with_confidence 1) = None ∧
  Analysis.timestamp (Sample.with_confidence 1) = None ∧
  update_retains_identity "x" (Sample.with_confidence 1) Sample.only_x.
Proof.
  split_and!; [reflexivity..|].
  exact (updateAnalysis_keeps_identity "x" (Sample.with_confidence 1) Sample.only_x
           eq_refl eq_refl).
Defined.

(** C6 as it is worded fails: an id key, or a timestamp key, of the updates
    object overwrites the record's. *)
Lemma updateAnalysis_overwrites_identity :
  ¬ update_retains_identity "x" (Sample.with_id "y") Sample.only_x ∧
  ¬ update_retains_identity "x" (Sample.with_timestamp 0) Sample.only_x.
Proof.
  split; intros Hretains;
    destruct (Hretains 0%nat _ eq_refl) as (new & Hnew & Hid & Htime);
    vm_compute in Hnew; simplify_eq; vm_compute in Hid, Htime; discriminate.
Qed.

(** ** Selection *)

(** With pairwise distinct ids, the record [find] returns for the id of a
    record of the history is that record. *)
Lemma list_find_unique_id analysisId (history : list Analysis.t) X k found :
  NoDup (Analysis.id <$> history) →
  X ∈ history →
  Analysis.id X = Some analysisId →
  list_find (Analysis.has_id analysisId) history = Some (k, found) →
  found = X.
Proof.
  intros Hnodup HX Hid Hfind.
  apply list_find_Some in Hfind as (Hk & Hfound & _).
  apply list_elem_of_lookup in HX as [j Hj].
  assert (k = j) as ->; [|congruence].
  apply (NoDup_lookup _ _ _ (Some analysisId) Hnodup);
    rewrite list_lookup_fmap.
  - by rewrite Hk; simpl; rewrite Hfound.
  - by rewrite Hj; simpl; rewrite Hid.
Qed.

(** What the two calls make of the selection, whatever the ids: a removal
    by the id of a selected record clears it, an update selects the record it
    has just written to the history, and a selection with another id
    stays. *)
Lemma selection_after_change state X analysisId updates :
  X ∈ analysisHistory state →
  Analysis.id X = Some analysisId →
  (selectedAnalysis state = Some X →
   selectedAnalysis (removeAnalysis analysisId state) = None ∧
   ∃ k old,
     list_find (Analysis.has_id analysisId) (analysisHistory state) = Some (k, old) ∧
     analysisHistory (updateAnalysis analysisId updates state) !! k
       = Some (Analysis.spread old updates) ∧
     selectedAnalysis (updateAnalysis analysisId updates state)
       = Some (Analysis.spread old updates) ∧
     (unique_ids state → old = X)) ∧
  (∀ Y,
     selectedAnalysis state = Some Y →
     Analysis.id Y ≠ Some analysisId →
     selectedAnalysis (removeAnalysis analysisId state) = Some Y ∧
     selectedAnalysis (updateAnalysis analysisId updates state) = Some Y).
Proof.
  intros HX Hid.
  destruct (list_find_elem_of (Analysis.has_id analysisId) _ X HX Hid)
    as [[k old] Hfind].
  unfold removeAnalysis, updateAnalysis. rewrite Hfind. simpl. split.
  - intros ->. simpl. rewrite bool_decide_eq_true_2 by done.
    split; [done|]. exists k, old. split_and!; [done| |done|].
    + apply list_find_Some in Hfind as (Hk & _ & _).
      apply list_lookup_insert_eq. by eapply lookup_lt_Some.
    + intros Hunique. by eapply list_find_unique_id.
  - intros Y -> HY. simpl. by rewrite bool_decide_eq_false_2.
Qed.

(** C9, as amended.  In a state where no two records of [analysisHistory]
    share an id, let X be a record of the history.  If X is selected, then
    after [removeAnalysis(X.id)] nothing is selected, and after
    [updateAnalysis(X.id, updates)] the selection is the updated record, X
    merged with the updates, which the history holds in the place of X.  If
    the selected record has an id other than X's, both calls leave the
    selection as it was. *)
Theorem selection_follows_unique_record state X analysisId updates :
  unique_ids state →
  X ∈ analysisHistory state →
  Analysis.id X = Some analysisId →
  (selectedAnalysis state = Some X →
   selectedAnalysis (removeAnalysis analysisId state) = None ∧
   selectedAnalysis (updateAnalysis analysisId updates state)
     = Some (Analysis.spread X updates) ∧
   ∃ k,
     analysisHistory state !! k = Some X ∧
     analysisHistory (updateAnalysis analysisId updates state) !! k
       = Some (Analysis.spread X updates)) ∧
  (∀ Y,
     selectedAnalysis state = Some Y →
     Analysis.id Y ≠ Some analysisId →
     selectedAnalysis (removeAnalysis analysisId state) = Some Y ∧
     selectedAnalysis (updateAnalysis analysisId updates state) = Some Y).
Proof.
  intros Hunique HX Hid.
  destruct (selection_after_change state X analysisId updates HX Hid)
    as [Hsame Hother].
  split; [|exact Hother].
  intros Hselected.
  destruct (Hsame Hselected) as (Hremoved & k & old & Hfind & Hwritten & Hupdated & Hold).
  rewrite (Hold Hunique) in *.
  split_and!; [done..|]. exists k. split; [|done].
  by apply list_find_Some in Hfind as (Hk & _ & _).
Qed.

(** In [Sample.busy_state] the first record inserted is the selected one:
    removing it clears the selection, updating its confidence selects the
    merged record. *)
Lemma selection_follows_unique_record_witness :
  let X := newAnalysis Sample.env1 Sample.image_report in
  let analysisId := generated_id Sample.env1 in
  let updates := Sample.with_confidence (6 # 10)%Q in
  unique_ids Sample.busy_state ∧
  X ∈ analysisHistory Sample.busy_state ∧
  Analysis.id X = Some analysisId ∧
  selectedAnalysis Sample.busy_state = Some X ∧
  selectedAnalysis (removeAnalysis analysisId Sample.busy_state) = None ∧
  selectedAnalysis (updateAnalysis analysisId updates Sample.busy_state)
    = Some (Analysis.spread X updates).
Proof.
  intros X analysisId updates.
  assert (unique_ids Sample.busy_state) as Hunique
    by (apply (bool_decide_unpack _); vm_compute; reflexivity).
  assert (X ∈ analysisHistory Sample.busy_state) as HX
    by (apply (list_elem_of_lookup_2 _ 1%nat); reflexivity).
  assert (Analysis.id X = Some analysisId) as Hid by reflexivity.
  assert (selectedAnalysis Sample.busy_state = Some X) as Hselected by reflexivity.
  destruct (selection_follows_unique_record Sample.busy_state X analysisId updates
              Hunique HX Hid) as [Hsame _].
  destruct (Hsame Hselected) as (Hremoved & Hupdated & _).
  split_and!; assumption.
Defined.

(** C9 as it is worded fails where two records share the id [x] and the older
    one is selected.  Taking the newer record for X, the selection is another
    record than X, and [removeAnalysis('x')] clears it.  Taking the older
    record for X, the selection is X, and [updateAnalysis('x', updates)]
    selects the newer record merged with the updates. *)
Lemma selection_lost_with_shared_id :
  let older := newAnalysis Sample.env1 Sample.x_with_violation in
  let newer := newAnalysis Sample.env2 (Sample.with_id "x") in
  let updates := Sample.with_confidence 1 in
  analysisHistory Sample.older_x_selected = [newer; older] ∧
  Analysis.id newer = Some "x" ∧
  Analysis.id older = Some "x" ∧
  ¬ selection_follows_value Sample.older_x_selected newer "x" updates ∧
  ¬ selection_follows_value Sample.older_x_selected older "x" updates.
Proof.
  intros older newer updates. split_and!; [reflexivity..| |].
  - intros [_ Hother].
    assert (older ≠ newer) as Hne
      by (intros Heq%(f_equal Analysis.timestamp); vm_compute in Heq; discriminate).
    destruct (Hother older eq_refl Hne) as [Hremoved _].
    vm_compute in Hremoved. discriminate.
  - intros [Hsame _]. destruct (Hsame eq_refl) as [_ Hupdated].
    apply (f_equal (fmap Analysis.timestamp)) in Hupdated.
    vm_compute in Hupdated. discriminate.
Qed.

(** ** Records that share an id *)

(** C10, as amended.  When two or more records of [analysisHistory] share the
    id X, [removeAnalysis(X)] removes all of them, lowers [totalAnalyses] by 1
    and [violationsDetected] by the violation count of the first of them, and
    floors both results at 0. *)
Theorem removeAnalysis_shared_id X state :
  (2 ≤ length (filter (Analysis.has_id X) (analysisHistory state)))%nat →
  removal_decrements_floored X state.
Proof.
  intros Hshared.
  destruct (filter (Analysis.has_id X) (analysisHistory state))
    as [|a matching] eqn:Hmatching; [simpl in Hshared; lia|].
  assert (a ∈ filter (Analysis.has_id X) (analysisHistory state)) as Ha
    by (rewrite Hmatching; left).
  apply list_elem_of_filter in Ha as [Hid Ha].
  destruct (list_find_elem_of (Analysis.has_id X) _ a Ha Hid) as [[k first] Hfind].
  exists k, first. unfold removeAnalysis. rewrite Hfind. simpl.
  split_and!; try done.
  apply Forall_forall. by intros b [Hb _]%list_elem_of_filter.
Qed.

(** Two records of id [x], removed together. *)
Lemma removeAnalysis_shared_id_witness :
  (2 ≤ length (filter (Analysis.has_id "x")
                 (analysisHistory (run Sample.twice_x_updated initialState))))%nat ∧
  removal_decrements_floored "x" (run Sample.twice_x_updated initialState).
Proof.
  assert (2 ≤ length (filter (Analysis.has_id "x")
                        (analysisHistory (run Sample.twice_x_updated initialState))))%nat
    as Hshared by (vm_compute; lia).
  split; [exact Hshared|].
  exact (removeAnalysis_shared_id "x" _ Hshared).
Defined.

(** C10 as it is worded fails: with two records of id [x], the first holding
    two violations, and [violationsDetected] at 1, [removeAnalysis] leaves
    [violationsDetected] at 0, not at 1 - 2. *)
Lemma removal_of_shared_id_is_floored :
  (2 ≤ length (filter (Analysis.has_id "x")
                 (analysisHistory (run Sample.twice_x_updated initialState))))%nat ∧
  ¬ removal_decrements_exactly "x" (run Sample.twice_x_updated initialState).
Proof.
  split; [vm_compute; lia|].
  intros (k & first & Hfind & _ & _ & Hdetected).
  vm_compute in Hfind. injection Hfind as <- <-.
  vm_compute in Hdetected. discriminate.
Qed.

(** ** Filtering and sorting *)

Lemma number_pos_date_diff (x y : Z) :
  number_pos (date_diff (Some x) (Some y)) = bool_decide (y < x).
Proof.
  simpl. unfold Qle_bool. simpl. rewrite Z.mul_1_r.
  case_bool_decide; [apply negb_true_iff | apply negb_false_iff]; lia.
Qed.

Lemma number_pos_inject_Z (z : Z) : number_pos (Fin (inject_Z z)) = bool_decide (0 < z).
Proof.
  simpl. unfold Qle_bool. simpl. rewrite Z.mul_1_r.
  case_bool_decide; [apply negb_true_iff | apply negb_false_iff]; lia.
Qed.

(** C8.  On the history
    [[{id:1, timestamp:T1, confidence:0.9, status:'pass'},
      {id:2, timestamp:T2, confidence:0.4, status:'fail'}]] with [T1 < T2],
    in a locale that puts 'pass' after 'fail', [getFilteredHistory] returns
    records 1, 2 under [sortBy:'date', sortOrder:'asc'], records 1, 2 under
    [sortBy:'confidence', sortOrder:'desc'], and records 2, 1 under
    [sortBy:'status', sortOrder:'asc']. *)
Theorem getFilteredHistory_scenario (localeCompare : string → string → Z) T1 T2 :
  T1 < T2 →
  0 < localeCompare "pass" "fail" →
  getFilteredHistory localeCompare (Scenario.state T1 T2 "date" "asc")
    = [Scenario.record1 T1; Scenario.record2 T2] ∧
  getFilteredHistory localeCompare (Scenario.state T1 T2 "confidence" "desc")
    = [Scenario.record1 T1; Scenario.record2 T2] ∧
  getFilteredHistory localeCompare (Scenario.state T1 T2 "status" "asc")
    = [Scenario.record2 T2; Scenario.record1 T1].
Proof.
  intros Hdates Hlocale. split_and!.
  - unfold getFilteredHistory, array_sort. cbn -[number_pos date_diff].
    rewrite number_pos_date_diff. by rewrite bool_decide_eq_false_2 by lia.
  - reflexivity.
  - unfold getFilteredHistory, array_sort. cbn -[number_pos inject_Z].
    rewrite number_pos_inject_Z. by rewrite bool_decide_eq_true_2.
Qed.

(** The scenario at T1 = 1000 and T2 = 2000 under code-unit order. *)
Lemma getFilteredHistory_scenario_witness :
  1000 < 2000 ∧
  0 < Sample.code_unit_compare "pass" "fail" ∧
  getFilteredHistory Sample.code_unit_compare (Scenario.state 1000 2000 "date" "asc")
    = [Scenario.record1 1000; Scenario.record2 2000] ∧
  getFilteredHistory Sample.code_unit_compare
      (Scenario.state 1000 2000 "confidence" "desc")
    = [Scenario.record1 1000; Scenario.record2 2000] ∧
  getFilteredHistory Sample.code_unit_compare (Scenario.state 1000 2000 "status" "asc")
    = [Scenario.record2 2000; Scenario.record1 1000].
Proof.
  assert (1000 < 2000) as Hdates by lia.
  assert (0 < Sample.code_unit_compare "pass" "fail") as Hlocale by (vm_compute; reflexivity).
  split; [exact Hdates|]. split; [exact Hlocale|].
  exact (getFilteredHistory_scenario Sample.code_unit_compare 1000 2000 Hdates Hlocale).
Defined.

(** * Further properties of the store *)

(** ** What the statistics keep whatever the ids *)

(** X1.  From the empty store, whatever the calls and whatever the ids,
    [totalAnalyses] is never below the number of records: a removal takes at
    least one record away and at most 1 off the counter. *)
Theorem history_within_total calls :
  Forall
    (λ s, Z.of_nat (length (analysisHistory s)) ≤ totalAnalyses (statistics s))
    (trace calls initialState).
Proof.
  apply (trace_invariant _ (λ _, True) (λ _, true)); try done;
    try by apply Forall_true.
  intros a s _ Hs _. destruct a; simpl; try done.
  - lia.
  - unfold removeAnalysis.
    destruct (list_find _ _) as [[k found]|] eqn:Hfind; [|done]. simpl.
    apply list_find_Some in Hfind as (Hk & Hid & _).
    apply list_elem_of_lookup_2 in Hk.
    pose proof (length_filter_lt (λ a, ¬ Analysis.has_id analysisId a) _ found Hk)
      as Hlt.
    assert (¬ ¬ Analysis.has_id analysisId found) as Hnn by tauto.
    specialize (Hlt Hnn). lia.
  - unfold updateAnalysis.
    destruct (list_find _ _) as [[k found]|] eqn:Hfind; [|done]. simpl.
    rewrite length_insert. by destruct (confidence_changed _ _).
Qed.

(** X2.  From the empty store every record of the history has an id and a
    timestamp: [addAnalysis] supplies both and a merge never takes a key
    away. *)
Theorem records_always_identified calls :
  Forall records_identified (trace calls initialState).
Proof.
  apply (trace_invariant _ (λ _, True) (λ _, true)); try done;
    try by apply Forall_true.
  - intros a s _ Hs _. unfold records_identified in *.
    destruct a; simpl; try done.
    + constructor; [|done]. simpl.
      by destruct (Analysis.id analysis), (Analysis.timestamp analysis).
    + unfold removeAnalysis.
      destruct (list_find _ _) as [[k found]|]; [|done]. simpl.
      apply Forall_forall. intros x [_ Hx]%list_elem_of_filter.
      by apply (proj1 (Forall_forall _ _) Hs).
    + unfold updateAnalysis.
      destruct (list_find _ _) as [[k found]|] eqn:Hfind; [|done]. simpl.
      apply list_find_Some in Hfind as (Hk & _ & _).
      apply Forall_insert; [done|].
      apply (Forall_lookup_1 _ _ _ _ Hs) in Hk as [[i Hi] [t Ht]].
      simpl. rewrite Hi, Ht.
      by destruct (Analysis.id updates), (Analysis.timestamp updates).
  - constructor.
Qed.

(** ** Type buckets *)

(** With pairwise distinct ids, removal takes exactly the found record out of
    the list and leaves the others in place. *)
Lemma filter_unique_id_split analysisId (history : list Analysis.t) k found :
  NoDup (Analysis.id <$> history) →
  list_find (Analysis.has_id analysisId) history = Some (k, found) →
  ∃ before after,
    history = before ++ found :: after ∧
    filter (λ a, ¬ Analysis.has_id analysisId a) history = before ++ after.
Proof.
  revert k. induction history as [|a history IH]; intros k Hnodup Hfind; [done|].
  rewrite fmap_cons in Hnodup. apply NoDup_cons in Hnodup as [Hnotin Hnodup].
  cbn in Hfind. case_decide as Hid.
  - simplify_eq. unfold Analysis.has_id in Hid. rewrite Hid in Hnotin.
    exists [], history. split; [done|].
    rewrite filter_cons_False by (intros Hn; by apply Hn).
    by rewrite (filter_absent_id _ _ Hnotin).
  - apply fmap_Some in Hfind as ([k' found'] & Hfind & ?). simplify_eq/=.
    destruct (IH _ Hnodup Hfind) as (before & after & -> & Hrest).
    exists (a :: before), after. split; [done|].
    rewrite filter_cons_True by done. by rewrite Hrest.
Qed.

Lemma length_filter_insert {A} (Q : A → Prop) `{!∀ x, Decision (Q x)}
    (l : list A) k old new :
  l !! k = Some old → (Q new ↔ Q old) →
  length (filter Q (<[k := new]> l)) = length (filter Q l).
Proof.
  revert k. induction l as [|a l IH]; intros [|k] Hk Hiff; simplify_eq/=.
  - rewrite !filter_cons. destruct (decide (Q new)), (decide (Q old)); tauto || done.
  - rewrite !filter_cons. destruct (decide (Q a)); simpl; by rewrite (IH k).
Qed.

Lemma reads_as_plus_1 v n : reads_as v n → or_0_plus_1 v = Count (n + 1).
Proof. destruct v as [[m| |ones]|]; simpl; intros Hv; try done; by subst. Qed.

Lemma reads_as_minus_1 v n :
  reads_as v n → n ≠ 0 → entry_truthy v = true ∧ minus_1 v = Count (n - 1).
Proof.
  destruct v as [[m| |]|]; simpl; try done. intros -> Hn.
  split; [|done]. by destruct (Z.eqb_spec n 0).
Qed.

Lemma dispatch_types_consistent a state :
  unique_ids state → types_consistent state → keeps_types a →
  types_consistent (dispatch a state).
Proof.
  unfold unique_ids, types_consistent, getAnalysisByType.
  intros Hnodup Htypes Hkeeps. destruct a; simpl; try done.
  - intros t Ht Hplain. specialize (Htypes t Ht Hplain).
    assert (Analysis.type (newAnalysis e analysis) = Analysis.type analysis) as Hnew
      by (simpl; by destruct (Analysis.type analysis)).
    rewrite filter_cons, Hnew.
    destruct (Analysis.type analysis) as [ty|] eqn:Hty.
    + destruct (truthy ty) eqn:Htruthy.
      * destruct (decide (ty = t)) as [->|Hne].
        -- rewrite lookup_insert_eq, decide_True by done.
           rewrite object_get_plain, (reads_as_plus_1 _ _ Htypes) by done.
           simpl. lia.
        -- rewrite lookup_insert_ne, decide_False by congruence. done.
      * rewrite decide_False by congruence. done.
    + by rewrite decide_False.
  - unfold removeAnalysis.
    destruct (list_find _ _) as [[k found]|] eqn:Hfind; [|done]. simpl.
    destruct (filter_unique_id_split _ _ _ _ Hnodup Hfind)
      as (before & after & Hsplit & ->).
    intros t Ht Hplain. pose proof (Htypes t Ht Hplain) as Hcount.
    rewrite Hsplit, filter_app, filter_cons, length_app in Hcount.
    rewrite filter_app, length_app.
    destruct (Analysis.type found) as [ty|] eqn:Hty.
    + destruct (truthy ty) eqn:Htruthy; simpl.
      * destruct (decide (ty = t)) as [->|Hne].
        -- rewrite decide_True in Hcount by done. simpl length in Hcount.
           rewrite object_get_plain by done.
           destruct (reads_as_minus_1 _ _ Hcount) as [-> ->]; [lia|].
           rewrite object_set_plain, lookup_insert_eq by done. simpl. lia.
        -- rewrite decide_False in Hcount by congruence.
           destruct (entry_truthy _); [rewrite object_set_lookup_ne by done|]; done.
      * by rewrite decide_False in Hcount by congruence.
    + by rewrite decide_False in Hcount by done.
  - unfold updateAnalysis.
    destruct (list_find _ _) as [[k found]|] eqn:Hfind; [|done]. simpl.
    apply list_find_Some in Hfind as (Hk & _ & _).
    simpl in Hkeeps. destruct (Analysis.type updates) eqn:Hupdates; [done|].
    intros t Ht Hplain.
    rewrite (length_filter_insert _ _ _ found) by (done || simpl; by rewrite Hupdates).
    destruct (confidence_changed _ _); by apply Htypes.
Qed.

(** X3.  From the empty store, along calls that keep ids pairwise distinct and
    never update a [type], the own property [analysisTypes[t]] (0 when
    absent) is the number of records of type [t], which is what
    [getAnalysisByType(t)] returns, for every non-empty label [t] that is not
    a name inherited from [Object.prototype]. *)
Theorem analysisTypes_match_history calls :
  Forall unique_ids (trace calls initialState) →
  Forall keeps_types calls →
  Forall types_consistent (trace calls initialState).
Proof.
  intros Hunique Hkeeps.
  apply (trace_invariant types_consistent unique_ids keeps_types); try done.
  - intros a s Hs Htypes Ha. by apply dispatch_types_consistent.
  - unfold unique_ids. simpl. constructor.
Qed.

(** The buckets of [image] and [text] along [Sample.ordinary_calls]. *)
Lemma analysisTypes_match_history_witness :
  Forall unique_ids (trace Sample.ordinary_calls initialState) ∧
  Forall keeps_types Sample.ordinary_calls ∧
  Forall types_consistent (trace Sample.ordinary_calls initialState).
Proof.
  assert (Forall unique_ids (trace Sample.ordinary_calls initialState)) as Hunique
    by (apply (bool_decide_unpack _); vm_compute; reflexivity).
  assert (Forall keeps_types Sample.ordinary_calls) as Hkeeps
    by (apply (bool_decide_unpack _); vm_compute; reflexivity).
  split_and!; [exact Hunique|exact Hkeeps|].
  exact (analysisTypes_match_history Sample.ordinary_calls Hunique Hkeeps).
Defined.

(** ** Look-up by id after a change *)

(** Dropping records that the search would skip anyway does not change what
    it finds. *)
Lemma list_find_filter_snd {A} (P Q : A → Prop)
    `{!∀ x, Decision (P x)} `{!∀ x, Decision (Q x)} (l : list A) :
  (∀ x, P x → Q x) →
  snd <$> list_find P (filter Q l) = snd <$> list_find P l.
Proof.
  intros HPQ. induction l as [|a l IH]; [done|].
  rewrite filter_cons. destruct (decide (Q a)) as [HQ|HQ].
  - cbn. case_decide; [done|].
    by destruct (list_find P (filter Q l)) as [[]|], (list_find P l) as [[]|];
      simplify_eq/=.
  - cbn. rewrite decide_False by auto.
    by destruct (list_find P (filter Q l)) as [[]|], (list_find P l) as [[]|];
      simplify_eq/=.
Qed.

Lemma list_find_insert_same {A} (P : A → Prop) `{!∀ x, Decision (P x)}
    (l : list A) k old new :
  list_find P l = Some (k, old) → P new →
  list_find P (<[k := new]> l) = Some (k, new).
Proof.
  revert k. induction l as [|a l IH]; intros k Hfind Hnew; [done|].
  cbn in Hfind. case_decide as Ha.
  - simplify_eq. cbn. by rewrite decide_True.
  - apply fmap_Some in Hfind as ([k' old'] & Hfind & ?). simplify_eq/=.
    rewrite decide_False by done. by rewrite (IH k' Hfind Hnew).
Qed.

(** X4.  The record [addAnalysis] has inserted is the one [getAnalysisById]
    returns for its id, the generated one or the caller's, even when an older
    record carries the same id. *)
Theorem getAnalysisById_after_add e analysis state :
  getAnalysisById (default (generated_id e) (Analysis.id analysis))
    (addAnalysis e analysis state)
    = Some (newAnalysis e analysis).
Proof.
  unfold getAnalysisById. simpl.
  rewrite decide_True; [done|].
  unfold Analysis.has_id. simpl. by destruct (Analysis.id analysis).
Qed.

(** X5.  After [removeAnalysis(id)] no record answers to [id], a second removal
    changes nothing, and every other id finds the record it found before. *)
Theorem removeAnalysis_forgets analysisId state :
  getAnalysisById analysisId (removeAnalysis analysisId state) = None ∧
  removeAnalysis analysisId (removeAnalysis analysisId state)
    = removeAnalysis analysisId state ∧
  ∀ other, other ≠ analysisId →
    getAnalysisById other (removeAnalysis analysisId state)
      = getAnalysisById other state.
Proof.
  assert (list_find (Analysis.has_id analysisId)
            (analysisHistory (removeAnalysis analysisId state)) = None) as Hgone.
  { unfold removeAnalysis.
    destruct (list_find _ (analysisHistory state)) as [[k found]|] eqn:Hfind;
      [|done].
    simpl. apply list_find_None, Forall_forall.
    by intros a [Ha _]%list_elem_of_filter. }
  split_and!.
  - unfold getAnalysisById. by rewrite Hgone.
  - unfold removeAnalysis at 1. by rewrite Hgone.
  - intros other Hother. unfold getAnalysisById, removeAnalysis.
    destruct (list_find _ (analysisHistory state)) as [[k found]|]; [|done].
    simpl. apply list_find_filter_snd.
    unfold Analysis.has_id. intros a Ha. congruence.
Qed.

(** X6.  When the updates carry no id, the record [updateAnalysis(id, updates)]
    has written is the one [getAnalysisById(id)] returns next. *)
Theorem getAnalysisById_after_update analysisId updates state old :
  Analysis.id updates = None →
  getAnalysisById analysisId state = Some old →
  getAnalysisById analysisId (updateAnalysis analysisId updates state)
    = Some (Analysis.spread old updates).
Proof.
  unfold getAnalysisById, updateAnalysis. intros Hid Hold.
  destruct (list_find _ _) as [[k found]|] eqn:Hfind; simplify_eq/=.
  rewrite (list_find_insert_same _ _ _ old); [done..|].
  apply list_find_Some in Hfind as (_ & Hfound & _).
  unfold Analysis.has_id in *. simpl. by rewrite Hid.
Qed.

(** An update of the confidence of [x], read back. *)
Lemma getAnalysisById_after_update_witness :
  Analysis.id (Sample.with_confidence 1) = None ∧
  getAnalysisById "x" Sample.only_x
    = Some (newAnalysis Sample.env1 (Sample.with_id "x")) ∧
  getAnalysisById "x" (updateAnalysis "x" (Sample.with_confidence 1) Sample.only_x)
    = Some (Analysis.spread (newAnalysis Sample.env1 (Sample.with_id "x"))
              (Sample.with_confidence 1)).
Proof.
  split_and!; [reflexivity..|].
  exact (getAnalysisById_after_update "x" (Sample.with_confidence 1) Sample.only_x
           _ eq_refl eq_refl).
Defined.

(** X7.  [updateAnalysis] never changes the number of records, the records with
    another id, [totalAnalyses], [violationsDetected], [analysisTypes] or the
    filters, whatever the updates hold. *)
Theorem updateAnalysis_frame analysisId updates state :
  length (analysisHistory (updateAnalysis analysisId updates state))
    = length (analysisHistory state) ∧
  (∀ j a, analysisHistory state !! j = Some a →
          ¬ Analysis.has_id analysisId a →
          analysisHistory (updateAnalysis analysisId updates state) !! j = Some a) ∧
  totalAnalyses (statistics (updateAnalysis analysisId updates state))
    = totalAnalyses (statistics state) ∧
  violationsDetected (statistics (updateAnalysis analysisId updates state))
    = violationsDetected (statistics state) ∧
  analysisTypes (statistics (updateAnalysis analysisId updates state))
    = analysisTypes (statistics state) ∧
  filters (updateAnalysis analysisId updates state) = filters state.
Proof.
  unfold updateAnalysis.
  destruct (list_find _ _) as [[k found]|] eqn:Hfind; [|done]. simpl.
  apply list_find_Some in Hfind as (Hk & Hfound & _).
  split_and!; try done; try by destruct (confidence_changed _ _).
  - apply length_insert.
  - intros j a Hj Ha. rewrite list_lookup_insert_ne; [done|].
    intros ->. congruence.
Qed.

(** ** Insertion undone by removal *)

(** X8.  Adding a record that brings no id of its own and whose type, if any,
    is not a name inherited from [Object.prototype], under a generated id no
    record has yet, and removing it by that id gives back the history, the
    two counters and every type bucket (an absent bucket reading as 0),
    provided no counter was negative. *)
Theorem add_then_remove e analysis state :
  Analysis.id analysis = None →
  (∀ ty, Analysis.type analysis = Some ty → inherited ty = false) →
  Forall (λ a, ¬ Analysis.has_id (generated_id e) a) (analysisHistory state) →
  counters_nonneg state →
  let state' := removeAnalysis (generated_id e) (addAnalysis e analysis state) in
  analysisHistory state' = analysisHistory state ∧
  totalAnalyses (statistics state') = totalAnalyses (statistics state) ∧
  violationsDetected (statistics state') = violationsDetected (statistics state) ∧
  ∀ t, default (Count 0) (analysisTypes (statistics state') !! t)
       = default (Count 0) (analysisTypes (statistics state) !! t).
Proof.
  intros Hid Hplain Hfresh (Htotal & Hdetected & Htypes) state'. subst state'.
  assert (Analysis.has_id (generated_id e) (newAnalysis e analysis)) as Hnew
    by (unfold Analysis.has_id; simpl; by rewrite Hid).
  unfold removeAnalysis. simpl.
  rewrite decide_True by done. simpl.
  rewrite filter_cons_False by tauto.
  assert (filter (λ a, ¬ Analysis.has_id (generated_id e) a) (analysisHistory state)
          = analysisHistory state) as ->.
  { clear -Hfresh. induction Hfresh as [|a l Ha _ IH]; [done|].
    by rewrite filter_cons_True, IH. }
  assert (Analysis.violations_length (newAnalysis e analysis)
          = Analysis.violations_length analysis) as ->
    by (by apply spread_fresh_violations_length).
  assert (0 ≤ Analysis.violations_length analysis)
    by (unfold Analysis.violations_length; destruct (Analysis.violations analysis); lia).
  split_and!; [done|lia|lia|].
  intros t.
  destruct (Analysis.type analysis) as [ty|]; simpl; [|done].
  specialize (Hplain ty eq_refl).
  destruct (truthy ty); simpl; [|done].
  assert (∃ n, 0 ≤ n ∧
            default (Count 0) (analysisTypes (statistics state) !! ty) = Count n ∧
            or_0_plus_1 (analysisTypes (statistics state) !! ty) = Count (n + 1))
    as (n & Hn & Hold & Hnew').
  { destruct (analysisTypes (statistics state) !! ty) as [v|] eqn:Hty.
    - destruct (map_Forall_lookup_1 _ _ _ _ Htypes Hty Hplain) as (n & -> & Hn).
      by exists n.
    - by exists 0. }
  rewrite !object_get_plain, lookup_insert_eq, Hnew' by done. simpl.
  destruct (Z.eqb_spec (n + 1) 0); [lia|]. simpl.
  rewrite object_set_plain by done.
  destruct (decide (ty = t)) as [->|Hne].
  - rewrite lookup_insert_eq, Hold. simpl. f_equal. lia.
  - by rewrite !lookup_insert_ne.
Qed.

(** A text report added to [Sample.busy_state] and removed again. *)
Lemma add_then_remove_witness :
  let e := mkEnv 1700000000100 "q7w8e9r0t" 1700000000100 in
  Analysis.id Sample.text_report = None ∧
  (∀ ty, Analysis.type Sample.text_report = Some ty → inherited ty = false) ∧
  Forall (λ a, ¬ Analysis.has_id (generated_id e) a)
    (analysisHistory Sample.busy_state) ∧
  counters_nonneg Sample.busy_state ∧
  let state' :=
    removeAnalysis (generated_id e)
      (addAnalysis e Sample.text_report Sample.busy_state) in
  analysisHistory state' = analysisHistory Sample.busy_state ∧
  totalAnalyses (statistics state') = totalAnalyses (statistics Sample.busy_state) ∧
  violationsDetected (statistics state')
    = violationsDetected (statistics Sample.busy_state) ∧
  ∀ t, default (Count 0) (analysisTypes (statistics state') !! t)
       = default (Count 0) (analysisTypes (statistics Sample.busy_state) !! t).
Proof.
  intros e.
  assert (∀ ty, Analysis.type Sample.text_report = Some ty → inherited ty = false)
    as Hplain by (by intros ty [= <-]).
  assert (Forall (λ a, ¬ Analysis.has_id (generated_id e) a)
            (analysisHistory Sample.busy_state)) as Hfresh
    by (apply (bool_decide_unpack _); vm_compute; reflexivity).
  assert (counters_nonneg Sample.busy_state) as Hnonneg
    by (unfold Sample.busy_state, run; cbn [foldl];
        repeat apply dispatch_counters_nonneg;
        apply initialState_counters_nonneg).
  split_and!; [reflexivity|exact Hplain|exact Hfresh|exact Hnonneg|].
  exact (add_then_remove e Sample.text_report Sample.busy_state
           eq_refl Hplain Hfresh Hnonneg).
Defined.

(** ** Actions that do not write the history *)

(** X9.  The filter, selection, loading and error actions never touch the history
    or the statistics. *)
Theorem view_actions_keep_data a state :
  writes_history a = false →
  analysisHistory (dispatch a state) = analysisHistory state ∧
  statistics (dispatch a state) = statistics state.
Proof. by destruct a. Qed.

(** Setting the sort key of [Sample.busy_state]. *)
Lemma view_actions_keep_data_witness :
  let a := SetFilters (mkPartialFilters None None None (Some "confidence") None) in
  writes_history a = false ∧
  analysisHistory (dispatch a Sample.busy_state) = analysisHistory Sample.busy_state ∧
  statistics (dispatch a Sample.busy_state) = statistics Sample.busy_state.
Proof.
  intros a. split; [reflexivity|].
  exact (view_actions_keep_data a Sample.busy_state eq_refl).
Defined.

(** X10.  Two [setFilters] in a row amount to one with the merged argument, the
    later keys winning, a [null] bound included; [resetFilters] forgets
    whatever was set; [setFilters({})] changes nothing. *)
Theorem setFilters_compose p q state :
  setFilters q (setFilters p state) = setFilters (merge_filters p q) state ∧
  resetFilters (setFilters p state) = resetFilters state ∧
  setFilters (mkPartialFilters None None None None None) state = state.
Proof.
  split_and!.
  - unfold setFilters, merge_filters. simpl. f_equal.
    by destruct p as [[] [] [] [] []], q as [[] [] [] [] []].
  - done.
  - by destruct state as [? ? [] ? ? ?].
Qed.

(** ** What [getFilteredHistory] returns *)

Lemma sort_insert_perm {A} (comparefn : A → A → number) x l :
  sort_insert comparefn x l ≡ₚ x :: l.
Proof.
  induction l as [|y l IH]; simpl; [done|].
  destruct (number_pos _); [|done].
  rewrite IH. apply Permutation_swap.
Qed.

Lemma array_sort_perm {A} (comparefn : A → A → number) l :
  array_sort comparefn l ≡ₚ l.
Proof.
  induction l as [|x l IH]; simpl; [done|].
  by rewrite sort_insert_perm, IH.
Qed.

Lemma List_filter_sublist {A} (f : A → bool) l : sublist (List.filter f l) l.
Proof.
  induction l as [|x l IH]; simpl; [constructor|].
  destruct (f x); by constructor.
Qed.

Lemma elem_of_List_filter {A} (f : A → bool) l x :
  x ∈ List.filter f l ↔ x ∈ l ∧ f x = true.
Proof. rewrite !list_elem_of_In, filter_In. done. Qed.

(** X11.  [getFilteredHistory] returns, in some order, a selection of the records
    of the history, each as often as the history holds it; with no date
    bound and [violationType: 'all'] it returns them all. *)
Theorem getFilteredHistory_selects localeCompare state :
  ∃ kept,
    sublist kept (analysisHistory state) ∧
    getFilteredHistory localeCompare state ≡ₚ kept ∧
    (dateFrom (filters state) = None → dateTo (filters state) = None →
     violationType (filters state) = "all" → kept = analysisHistory state).
Proof.
  unfold getFilteredHistory. eexists. split_and!.
  2: apply array_sort_perm.
  - destruct (dateFrom (filters state)), (dateTo (filters state)),
      (String.eqb (violationType (filters state)) "all");
      repeat (done || (etrans; [apply List_filter_sublist|])).
  - intros -> -> ->. done.
Qed.

Lemma elem_of_getFilteredHistory localeCompare state r :
  r ∈ getFilteredHistory localeCompare state ↔
  r ∈ analysisHistory state ∧
  (∀ d, dateFrom (filters state) = Some d →
        ∃ t, Analysis.timestamp r = Some t ∧ d ≤ t) ∧
  (∀ d, dateTo (filters state) = Some d →
        ∃ t, Analysis.timestamp r = Some t ∧ t ≤ d) ∧
  (violationType (filters state) ≠ "all" →
   ∃ vs v, Analysis.violations r = Some vs ∧ v ∈ vs ∧
           Violation.type v = Some (violationType (filters state))).
Proof.
  unfold getFilteredHistory. rewrite array_sort_perm.
  assert (∀ d, date_ge (Analysis.timestamp r) (Some d) = true ↔
               ∃ t, Analysis.timestamp r = Some t ∧ d ≤ t) as Hfrom.
  { intros d. unfold date_ge. destruct (Analysis.timestamp r) as [t|].
    - rewrite Z.leb_le. split; [by exists t|]. by intros (t' & [= <-] & Ht).
    - split; [done|]. by intros (t & [=] & _). }
  assert (∀ d, date_ge (Some d) (Analysis.timestamp r) = true ↔
               ∃ t, Analysis.timestamp r = Some t ∧ t ≤ d) as Hto.
  { intros d. unfold date_ge. destruct (Analysis.timestamp r) as [t|].
    - rewrite Z.leb_le. split; [by exists t|]. by intros (t' & [= <-] & Ht).
    - split; [done|]. by intros (t & [=] & _). }
  assert (∀ ty, has_violation_type ty r = true ↔
                ∃ vs v, Analysis.violations r = Some vs ∧ v ∈ vs ∧
                        Violation.type v = Some ty) as Htype.
  { intros ty. unfold has_violation_type.
    destruct (Analysis.violations r) as [vs|].
    - rewrite existsb_exists. split.
      + intros (v & Hv%list_elem_of_In & Hty%bool_decide_eq_true). by exists vs, v.
      + intros (vs' & v & [= <-] & Hv%list_elem_of_In & Hty).
        exists v. by rewrite bool_decide_eq_true.
    - split; [done|]. by intros (vs & v & [=] & _). }
  destruct (String.eqb_spec (violationType (filters state)) "all") as [Hall|Hall];
    destruct (dateFrom (filters state)) as [from|],
             (dateTo (filters state)) as [to|];
    rewrite ?elem_of_List_filter, ?Hfrom, ?Hto, ?Htype;
    intuition (simplify_eq; eauto).
Qed.

(** X12.  A record is returned exactly when it is in the history, its timestamp is
    present and not before [dateFrom] when that bound is set, present and not
    after [dateTo] when that bound is set, and, unless [violationType] is
    ['all'], one of its violations has that type. *)
Theorem getFilteredHistory_membership localeCompare state r :
  r ∈ getFilteredHistory localeCompare state ↔
  r ∈ analysisHistory state ∧
  (∀ d, dateFrom (filters state) = Some d →
        ∃ t, Analysis.timestamp r = Some t ∧ d ≤ t) ∧
  (∀ d, dateTo (filters state) = Some d →
        ∃ t, Analysis.timestamp r = Some t ∧ t ≤ d) ∧
  (violationType (filters state) ≠ "all" →
   ∃ vs v, Analysis.violations r = Some vs ∧ v ∈ vs ∧
           Violation.type v = Some (violationType (filters state))).
Proof. apply elem_of_getFilteredHistory. Qed.

(** ** The order of what [getFilteredHistory] returns *)

Lemma sort_insert_sorted {A} (comparefn : A → A → number) (R : relation A) x l :
  Sorted R l →
  Forall (λ y, if number_pos (comparefn x y) then R y x else R x y) l →
  Sorted R (sort_insert comparefn x l).
Proof.
  induction 1 as [|y l Hsorted IH Hhead]; intros Hx; simpl.
  - repeat constructor.
  - apply Forall_cons in Hx as [Hxy Hx].
    destruct (number_pos (comparefn x y)) eqn:Hpos.
    + constructor; [by apply IH|].
      destruct Hhead as [|z l Hyz]; simpl; [by constructor|].
      destruct (number_pos (comparefn x z)); by constructor.
    + repeat constructor; done.
Qed.

Lemma array_sort_sorted {A} (comparefn : A → A → number) (R : relation A) l :
  (∀ x y, x ∈ l → y ∈ l → if number_pos (comparefn x y) then R y x else R x y) →
  Sorted R (array_sort comparefn l).
Proof.
  induction l as [|x l IH]; intros Hcmp; simpl; [constructor|].
  apply sort_insert_sorted.
  - apply IH. intros y z Hy Hz. apply Hcmp; by right.
  - apply Forall_forall. intros y Hy. rewrite array_sort_perm in Hy.
    apply Hcmp; [left|by right].
Qed.

(** The list handed to [sort] holds records of the history only. *)
Lemma getFilteredHistory_sorted localeCompare state (R : relation Analysis.t) :
  (∀ x y, x ∈ analysisHistory state → y ∈ analysisHistory state →
          if number_pos (compare_analyses localeCompare (filters state) x y)
          then R y x else R x y) →
  Sorted R (getFilteredHistory localeCompare state).
Proof.
  intros Hcmp. unfold getFilteredHistory. apply array_sort_sorted.
  assert (∀ kept : list Analysis.t,
            sublist kept (analysisHistory state) →
            ∀ x y, x ∈ kept → y ∈ kept →
              if number_pos (compare_analyses localeCompare (filters state) x y)
              then R y x else R x y) as Hsub.
  { intros kept Hkept x y Hx Hy.
    apply Hcmp; by apply (sublist_subseteq _ _ Hkept). }
  apply Hsub.
  destruct (dateFrom (filters state)), (dateTo (filters state)),
    (String.eqb (violationType (filters state)) "all");
    repeat (done || (etrans; [apply List_filter_sublist|])).
Qed.

Lemma number_pos_opp_date_diff (x y : Z) :
  number_pos (number_opp (date_diff (Some x) (Some y))) = bool_decide (x < y).
Proof.
  simpl. unfold Qle_bool. simpl. rewrite Z.mul_1_r.
  case_bool_decide; [apply negb_true_iff | apply negb_false_iff]; lia.
Qed.

Lemma not_after_transitive : Transitive not_after.
Proof.
  intros a b c (x & y & Ha & Hb & Hxy) (y' & z & Hb' & Hc & Hyz).
  exists x, z. split_and!; [done..|]. simplify_eq. lia.
Qed.

Lemma flip_not_after_transitive : Transitive (flip not_after).
Proof. intros a b c Hab Hbc. exact (not_after_transitive _ _ _ Hbc Hab). Qed.

(** X13.  When [sortBy] is neither ['confidence'] nor ['status'] and every record
    has a timestamp, the records come back oldest first under
    [sortOrder: 'asc'] and newest first under any other [sortOrder]. *)
Theorem getFilteredHistory_by_date localeCompare state :
  sortBy (filters state) ≠ "confidence" →
  sortBy (filters state) ≠ "status" →
  Forall (λ a, is_Some (Analysis.timestamp a)) (analysisHistory state) →
  (sortOrder (filters state) = "asc" →
   StronglySorted not_after (getFilteredHistory localeCompare state)) ∧
  (sortOrder (filters state) ≠ "asc" →
   StronglySorted (flip not_after) (getFilteredHistory localeCompare state)).
Proof.
  intros Hconfidence Hstatus Hstamped.
  assert (∀ x, x ∈ analysisHistory state → is_Some (Analysis.timestamp x)) as Hts
    by (by apply Forall_forall).
  split; intros Horder.
  - apply (Sorted_StronglySorted not_after_transitive), getFilteredHistory_sorted.
    intros x y [tx Hx]%Hts [ty Hy]%Hts. unfold compare_analyses.
    rewrite (proj2 (String.eqb_neq _ _) Hconfidence),
      (proj2 (String.eqb_neq _ _) Hstatus), Horder. simpl String.eqb. cbv iota.
    rewrite Hx, Hy, number_pos_date_diff.
    case_bool_decide; [exists ty, tx|exists tx, ty]; split_and!; done || lia.
  - apply (Sorted_StronglySorted flip_not_after_transitive), getFilteredHistory_sorted.
    intros x y [tx Hx]%Hts [ty Hy]%Hts. unfold compare_analyses.
    rewrite (proj2 (String.eqb_neq _ _) Hconfidence),
      (proj2 (String.eqb_neq _ _) Hstatus),
      (proj2 (String.eqb_neq _ _) Horder).
    rewrite Hx, Hy, number_pos_opp_date_diff. unfold flip.
    case_bool_decide; [exists tx, ty|exists ty, tx]; split_and!; done || lia.
Qed.

(** The three records of [Sample.three_reports] under the default filters:
    newest first. *)
Lemma getFilteredHistory_by_date_witness :
  sortBy (filters Sample.three_reports) ≠ "confidence" ∧
  sortBy (filters Sample.three_reports) ≠ "status" ∧
  Forall (λ a, is_Some (Analysis.timestamp a)) (analysisHistory Sample.three_reports) ∧
  sortOrder (filters Sample.three_reports) ≠ "asc" ∧
  StronglySorted (flip not_after)
    (getFilteredHistory Sample.code_unit_compare Sample.three_reports).
Proof.
  assert (sortBy (filters Sample.three_reports) ≠ "confidence") as Hconfidence
    by (vm_compute; discriminate).
  assert (sortBy (filters Sample.three_reports) ≠ "status") as Hstatus
    by (vm_compute; discriminate).
  assert (Forall (λ a, is_Some (Analysis.timestamp a))
            (analysisHistory Sample.three_reports)) as Hstamped
    by (repeat constructor; by eexists).
  assert (sortOrder (filters Sample.three_reports) ≠ "asc") as Horder
    by (vm_compute; discriminate).
  split_and!; [done..|].
  exact (proj2 (getFilteredHistory_by_date Sample.code_unit_compare
                  Sample.three_reports Hconfidence Hstatus Hstamped) Horder).
Defined.

Lemma confidence_le_transitive : Transitive confidence_le.
Proof. intros a b c. unfold confidence_le. apply Qle_trans. Qed.

Lemma flip_confidence_le_transitive : Transitive (flip confidence_le).
Proof. intros a b c Hab Hbc. exact (confidence_le_transitive _ _ _ Hbc Hab). Qed.

(** X14.  Under [sortBy: 'confidence'] the records come back by growing confidence
    when [sortOrder] is ['asc'] and by falling confidence otherwise, a record
    without confidence counting as 0. *)
Theorem getFilteredHistory_by_confidence localeCompare state :
  sortBy (filters state) = "confidence" →
  (sortOrder (filters state) = "asc" →
   StronglySorted confidence_le (getFilteredHistory localeCompare state)) ∧
  (sortOrder (filters state) ≠ "asc" →
   StronglySorted (flip confidence_le) (getFilteredHistory localeCompare state)).
Proof.
  intros Hby. split; intros Horder.
  - apply (Sorted_StronglySorted confidence_le_transitive), getFilteredHistory_sorted.
    intros x y _ _. unfold compare_analyses, confidence_le.
    rewrite Hby, Horder. simpl.
    destruct (Qle_bool _ 0) eqn:Hle; simpl.
    + apply Qle_bool_iff in Hle. lra.
    + assert (¬ (Analysis.confidence_or_0 x - Analysis.confidence_or_0 y <= 0)%Q)
        by (rewrite <- Qle_bool_iff; congruence).
      lra.
  - apply (Sorted_StronglySorted flip_confidence_le_transitive),
      getFilteredHistory_sorted.
    intros x y _ _. unfold compare_analyses, confidence_le, flip.
    rewrite Hby, (proj2 (String.eqb_neq _ _) Horder). simpl.
    destruct (Qle_bool _ 0) eqn:Hle; simpl.
    + apply Qle_bool_iff in Hle. lra.
    + assert (¬ (- (Analysis.confidence_or_0 x - Analysis.confidence_or_0 y) <= 0)%Q)
        by (rewrite <- Qle_bool_iff; congruence).
      lra.
Qed.

(** [Sample.three_reports] by falling confidence. *)
Lemma getFilteredHistory_by_confidence_witness :
  let state :=
    setFilters (mkPartialFilters None None None (Some "confidence") None)
      Sample.three_reports in
  sortBy (filters state) = "confidence" ∧
  sortOrder (filters state) ≠ "asc" ∧
  StronglySorted (flip confidence_le)
    (getFilteredHistory Sample.code_unit_compare state).
Proof.
  intros state.
  assert (sortOrder (filters state) ≠ "asc") as Horder by (vm_compute; discriminate).
  split_and!; [reflexivity|exact Horder|].
  exact (proj2 (getFilteredHistory_by_confidence Sample.code_unit_compare state
                  eq_refl) Horder).
Defined.

Lemma number_pos_opp_inject_Z (z : Z) :
  number_pos (number_opp (Fin (inject_Z z))) = bool_decide (z < 0).
Proof.
  simpl. unfold Qle_bool. simpl. rewrite Z.mul_1_r.
  case_bool_decide; [apply negb_true_iff | apply negb_false_iff]; lia.
Qed.

Lemma code_unit_compare_antisym a b :
  Z.sgn (Sample.code_unit_compare b a) = - Z.sgn (Sample.code_unit_compare a b).
Proof.
  unfold Sample.code_unit_compare. rewrite (String.compare_antisym a b).
  by destruct (String.compare b a).
Qed.

(** X15.  Under [sortBy: 'status'], in a collation whose comparison changes sign
    when its arguments are swapped, no record is followed by one whose status
    comes before its own when [sortOrder] is ['asc'], nor by one whose status
    comes after its own otherwise; a record without status counts as ['']. *)
Theorem getFilteredHistory_by_status localeCompare state :
  (∀ a b, Z.sgn (localeCompare b a) = - Z.sgn (localeCompare a b)) →
  sortBy (filters state) = "status" →
  (sortOrder (filters state) = "asc" →
   Sorted (status_le localeCompare) (getFilteredHistory localeCompare state)) ∧
  (sortOrder (filters state) ≠ "asc" →
   Sorted (flip (status_le localeCompare)) (getFilteredHistory localeCompare state)).
Proof.
  intros Hantisym Hby. split; intros Horder.
  - apply getFilteredHistory_sorted.
    intros x y _ _. unfold compare_analyses, status_le.
    rewrite Hby, Horder. simpl String.eqb. cbv iota.
    rewrite number_pos_inject_Z.
    specialize (Hantisym (default "" (Analysis.status x))
                  (default "" (Analysis.status y))).
    case_bool_decide; lia.
  - apply getFilteredHistory_sorted.
    intros x y _ _. unfold compare_analyses, status_le, flip.
    rewrite Hby, (proj2 (String.eqb_neq _ _) Horder). simpl String.eqb. cbv iota.
    rewrite number_pos_opp_inject_Z.
    specialize (Hantisym (default "" (Analysis.status x))
                  (default "" (Analysis.status y))).
    case_bool_decide; lia.
Qed.

(** [Sample.three_reports] by status, in code-unit order. *)
Lemma getFilteredHistory_by_status_witness :
  let state :=
    setFilters (mkPartialFilters None None None (Some "status") (Some "asc"))
      Sample.three_reports in
  (∀ a b, Z.sgn (Sample.code_unit_compare b a)
          = - Z.sgn (Sample.code_unit_compare a b)) ∧
  sortBy (filters state) = "status" ∧
  sortOrder (filters state) = "asc" ∧
  Sorted (status_le Sample.code_unit_compare)
    (getFilteredHistory Sample.code_unit_compare state).
Proof.
  intros state.
  split_and!; [exact code_unit_compare_antisym|reflexivity..|].
  exact (proj1 (getFilteredHistory_by_status Sample.code_unit_compare state
                  code_unit_compare_antisym eq_refl) eq_refl).
Defined.

(** ** The most recent records *)

(** X16.  [getRecentAnalyses] returns the first ten records when called without
    argument and the first [n] for a limit [n >= 0], or all of them when
    there are fewer; a negative limit [-p] returns all but the last [p]
    records. *)
Theorem getRecentAnalyses_slice state :
  getRecentAnalyses None state = take 10 (analysisHistory state) ∧
  (∀ n : nat,
     getRecentAnalyses (Some (Z.of_nat n)) state = take n (analysisHistory state)) ∧
  (∀ p : positive,
     getRecentAnalyses (Some (Z.neg p)) state
       = take (length (analysisHistory state) - Pos.to_nat p) (analysisHistory state)).
Proof.
  assert (∀ n : nat,
            getRecentAnalyses (Some (Z.of_nat n)) state
              = take n (analysisHistory state)) as Hnat.
  { intros n. unfold getRecentAnalyses. simpl default.
    rewrite (proj2 (Z.ltb_ge _ _)) by lia. cbv zeta.
    destruct (decide (n ≤ length (analysisHistory state))%nat).
    - f_equal. lia.
    - rewrite !take_ge by lia. done. }
  split_and!; [apply (Hnat 10%nat)|exact Hnat|].
  intros p. unfold getRecentAnalyses. simpl. f_equal. lia.
Qed.

(** X17.  After [addAnalysis] the new record heads the recent ones, followed by
    what a limit one lower returned before. *)
Theorem getRecentAnalyses_after_add e analysis state limit :
  0 < limit →
  getRecentAnalyses (Some limit) (addAnalysis e analysis state)
    = newAnalysis e analysis :: getRecentAnalyses (Some (limit - 1)) state.
Proof.
  intros Hlimit. unfold getRecentAnalyses. simpl default.
  rewrite !(proj2 (Z.ltb_ge _ _)) by lia. cbv zeta.
  change (analysisHistory (addAnalysis e analysis state))
    with (newAnalysis e analysis :: analysisHistory state).
  replace (Z.to_nat (Z.min limit
             (Z.of_nat (length (newAnalysis e analysis :: analysisHistory state)))))
    with (S (Z.to_nat (Z.min (limit - 1)
                         (Z.of_nat (length (analysisHistory state))))))
    by (simpl length; lia).
  done.
Qed.

(** The three most recent records once a fourth report has come in. *)
Lemma getRecentAnalyses_after_add_witness :
  let e := mkEnv 1700000000200 "a1b2c3d4e" 1700000000200 in
  0 < 3 ∧
  getRecentAnalyses (Some 3) (addAnalysis e Sample.text_report Sample.three_reports)
    = newAnalysis e Sample.text_report
      :: getRecentAnalyses (Some (3 - 1)) Sample.three_reports.
Proof.
  intros e. assert (0 < 3) as Hlimit by lia.
  split; [exact Hlimit|].
  exact (getRecentAnalyses_after_add e Sample.text_report Sample.three_reports 3 Hlimit).
Defined.

(** ** The violation summary *)

Lemma violations_under_nonneg k history : 0 ≤ violations_under k history.
Proof. induction history as [|a history IH]; simpl; lia. Qed.

Lemma count_violation_entry summary v k c :
  0 ≤ c →
  summary !! k = summary_entry k c →
  count_violation summary v !! k
    = summary_entry k (c + (if decide (summary_key v = k) then 1 else 0)).
Proof.
  intros Hc Hk. unfold count_violation.
  destruct (decide (summary_key v = k)) as [Heq|Hne]; [rewrite Heq|];
    [|by rewrite object_set_lookup_ne, Z.add_0_r].
  unfold object_set, object_get, summary_entry in *.
  rewrite (proj2 (Z.eqb_neq (c + 1) 0)) by lia.
  destruct (String.eqb_spec k "__proto__") as [Hproto|Hproto]; simpl.
  - assert (summary !! k = None) as Hnone by (rewrite Hk; by destruct (c =? 0)).
    by rewrite bool_decide_eq_true_2.
  - rewrite lookup_insert_eq, Hk.
    destruct (Z.eqb_spec c 0) as [->|Hpos], (inherited k); simpl;
      do 2 f_equal; lia.
Qed.

Lemma foldl_count_violation_entry summary vs k c :
  0 ≤ c →
  summary !! k = summary_entry k c →
  foldl count_violation summary vs !! k
    = summary_entry k
        (c + Z.of_nat (length (filter (λ v, summary_key v = k) vs))).
Proof.
  revert summary c. induction vs as [|v vs IH]; intros summary c Hc Hk; simpl.
  - by rewrite Z.add_0_r.
  - rewrite (IH _ (c + (if decide (summary_key v = k) then 1 else 0)));
      [|destruct (decide _); lia|by apply count_violation_entry].
    rewrite filter_cons. f_equal. destruct (decide (summary_key v = k)); simpl; lia.
Qed.

Lemma foldl_count_violations_entry summary history k c :
  0 ≤ c →
  summary !! k = summary_entry k c →
  foldl count_violations summary history !! k
    = summary_entry k (c + violations_under k history).
Proof.
  revert summary c. induction history as [|a history IH]; intros summary c Hc Hk; simpl.
  - by rewrite Z.add_0_r.
  - pose proof (violations_under_nonneg k history).
    unfold count_violations at 2.
    destruct (Analysis.violations a) as [vs|]; simpl.
    + rewrite (IH _ (c + Z.of_nat (length (filter (λ v, summary_key v = k) vs))));
        [f_equal; lia|lia|by apply foldl_count_violation_entry].
    + rewrite (IH _ c) by done. f_equal.
Qed.

Lemma getViolationSummary_lookup state k :
  getViolationSummary state !! k
    = summary_entry k (violations_under k (analysisHistory state)).
Proof.
  unfold getViolationSummary.
  by rewrite (foldl_count_violations_entry ∅ _ k 0).
Qed.

(** X18.  [getViolationSummary] holds, under a key that is not a name inherited
    from [Object.prototype], the number of violations of the history counted
    under it, a violation without type going under ['undefined'], and no
    such key when nothing was counted under it.  Under an inherited name it
    holds a string instead, the text of the inherited member followed by one
    ['1'] per violation, and under [__proto__] nothing at all. *)
Theorem getViolationSummary_counts state k :
  getViolationSummary state !! k
    = summary_entry k (violations_under k (analysisHistory state)).
Proof. apply getViolationSummary_lookup. Qed.

Lemma summary_total_insert summary k v :
  summary !! k = None →
  summary_total (<[k := v]> summary)
    = match v with Count n => n + summary_total summary | _ => summary_total summary end.
Proof.
  intros Hk. unfold summary_total. rewrite map_fold_insert_L; [done| |done].
  intros j1 j2 [] [] y _ _ _; lia.
Qed.

Lemma summary_total_count_violation summary v :
  inherited (summary_key v) = false →
  map_Forall (λ _ e, ∃ n, e = Count n) summary →
  summary_total (count_violation summary v) = summary_total summary + 1 ∧
  map_Forall (λ _ e, ∃ n, e = Count n) (count_violation summary v).
Proof.
  intros Hplain Hcounts. unfold count_violation.
  rewrite object_set_plain, object_get_plain by done.
  destruct (summary !! summary_key v) as [e|] eqn:He; simpl.
  - destruct (map_Forall_lookup_1 _ _ _ _ Hcounts He) as [n ->]. simpl. split.
    + rewrite <- insert_delete_eq.
      rewrite summary_total_insert by apply lookup_delete_eq.
      rewrite <- (insert_delete_id summary (summary_key v) (Count n)) at 2 by done.
      rewrite summary_total_insert by apply lookup_delete_eq. lia.
    + apply map_Forall_insert_2; [by eexists|done].
  - split.
    + rewrite summary_total_insert by done. lia.
    + apply map_Forall_insert_2; [by eexists|done].
Qed.

(** X19.  When no violation of the history is counted under a name inherited
    from [Object.prototype], the numbers of the summary add up to the number
    of violations in the history, the sum [violationsDetected] is meant to
    hold. *)
Theorem getViolationSummary_total state :
  plain_violation_types state →
  summary_total (getViolationSummary state) = violation_count (analysisHistory state).
Proof.
  unfold plain_violation_types, getViolationSummary.
  assert (∀ vs summary,
            Forall (λ v, inherited (summary_key v) = false) vs →
            map_Forall (λ _ e, ∃ n, e = Count n) summary →
            summary_total (foldl count_violation summary vs)
              = summary_total summary + Z.of_nat (length vs) ∧
            map_Forall (λ _ e, ∃ n, e = Count n) (foldl count_violation summary vs))
    as Hvs.
  { induction vs as [|v vs IHvs]; intros summary Hplain Hcounts; simpl foldl.
    - split; [simpl; lia|done].
    - apply Forall_cons in Hplain as [Hv Hplain].
      destruct (summary_total_count_violation summary v Hv Hcounts) as [Htotal Hnext].
      destruct (IHvs _ Hplain Hnext) as [-> Hall]. split; [|done].
      rewrite Htotal. simpl length. lia. }
  assert (∀ history summary,
            Forall (λ a, Forall (λ v, inherited (summary_key v) = false)
                           (default [] (Analysis.violations a))) history →
            map_Forall (λ _ e, ∃ n, e = Count n) summary →
            summary_total (foldl count_violations summary history)
              = summary_total summary + violation_count history) as Hfold.
  { induction history as [|a history IH]; intros summary Hplain Hcounts; simpl.
    - lia.
    - apply Forall_cons in Hplain as [Ha Hplain].
      unfold count_violations at 2. unfold Analysis.violations_length.
      destruct (Analysis.violations a) as [vs|]; simpl in Ha.
      + destruct (Hvs vs summary Ha Hcounts) as [Htotal Hnext].
        rewrite (IH _ Hplain Hnext), Htotal. lia.
      + rewrite (IH _ Hplain Hcounts). lia. }
  intros Hplain. rewrite (Hfold _ ∅ Hplain) by apply map_Forall_empty.
  unfold summary_total. rewrite map_fold_empty. lia.
Qed.

(** The three violations of [Sample.three_reports], of types [nudity],
    [spam] and none. *)
Lemma getViolationSummary_total_witness :
  plain_violation_types Sample.three_reports ∧
  summary_total (getViolationSummary Sample.three_reports)
    = violation_count (analysisHistory Sample.three_reports).
Proof.
  assert (plain_violation_types Sample.three_reports) as Hplain
    by (repeat constructor).
  split; [exact Hplain|].
  exact (getViolationSummary_total Sample.three_reports Hplain).
Defined.

Lemma violations_under_nonzero k history :
  violations_under k history ≠ 0 ↔
  ∃ a vs v, a ∈ history ∧ Analysis.violations a = Some vs ∧ v ∈ vs ∧
            summary_key v = k.
Proof.
  induction history as [|a history IH]; simpl.
  - split; [done|]. intros (a & vs & v & Ha & _). by apply elem_of_nil in Ha.
  - split.
    + intros Hcount.
      destruct (filter (λ v, summary_key v = k) (default [] (Analysis.violations a)))
        as [|v matching] eqn:Hmatching.
      * simpl in Hcount. destruct (proj1 IH Hcount) as (b & vs & v & Hb & Hrest).
        exists b, vs, v. split; [by right|done].
      * assert (v ∈ filter (λ v, summary_key v = k)
                      (default [] (Analysis.violations a))) as Hv
          by (rewrite Hmatching; left).
        apply list_elem_of_filter in Hv as [Hkey Hv].
        destruct (Analysis.violations a) as [vs|] eqn:Hvs; simpl in Hv.
        -- exists a, vs, v. split_and!; [left|done..].
        -- by apply elem_of_nil in Hv.
    + intros (b & vs & v & Hb & Hvs & Hv & Hkey).
      assert (0 ≤ violations_under k history) as Hrest.
      { clear. induction history as [|c history IHh]; simpl; lia. }
      apply elem_of_cons in Hb as [->|Hb].
      * rewrite Hvs. simpl.
        assert (v ∈ filter (λ v, summary_key v = k) vs) as Hin
          by (by apply list_elem_of_filter).
        destruct (filter (λ v, summary_key v = k) vs); [|simpl; lia].
        by apply elem_of_nil in Hin.
      * assert (violations_under k history ≠ 0)
          by (apply IH; by exists b, vs, v).
        lia.
Qed.

(** X20.  With no date bound, filtering by a violation type other than ['all'],
    ['undefined'] and the names inherited from [Object.prototype] returns
    something exactly when [getViolationSummary] has a key for that type. *)
Theorem violation_filter_matches_summary localeCompare state :
  dateFrom (filters state) = None →
  dateTo (filters state) = None →
  violationType (filters state) ≠ "all" →
  violationType (filters state) ≠ "undefined" →
  inherited (violationType (filters state)) = false →
  getFilteredHistory localeCompare state ≠ [] ↔
  is_Some (getViolationSummary state !! violationType (filters state)).
Proof.
  intros Hfrom Hto Hall Hundefined Hplain.
  rewrite getViolationSummary_lookup. unfold summary_entry. rewrite Hplain.
  destruct (String.eqb_spec (violationType (filters state)) "__proto__") as [Hproto|_];
    [by rewrite Hproto, inherited_proto in Hplain|].
  assert (∀ v : Violation.t,
            summary_key v = violationType (filters state) ↔
            Violation.type v = Some (violationType (filters state))) as Hkey.
  { intros [[ty|]]; unfold summary_key; simpl; split; congruence. }
  split.
  - intros Hsome.
    destruct (getFilteredHistory localeCompare state) as [|r rest] eqn:Hresult;
      [done|].
    assert (r ∈ getFilteredHistory localeCompare state) as Hr
      by (rewrite Hresult; left).
    apply elem_of_getFilteredHistory in Hr as (Hr & _ & _ & Htype).
    destruct (Htype Hall) as (vs & v & Hvs & Hv & Hty).
    rewrite (proj2 (Z.eqb_neq _ _)); [done|].
    apply violations_under_nonzero. exists r, vs, v. by rewrite Hkey.
  - destruct (Z.eqb_spec (violations_under (violationType (filters state))
                            (analysisHistory state)) 0) as [|Hzero];
      [by intros [? [=]]|]. intros _.
    apply violations_under_nonzero in Hzero as (r & vs & v & Hr & Hvs & Hv & Hty).
    assert (r ∈ getFilteredHistory localeCompare state) as Hin.
    { apply elem_of_getFilteredHistory. split_and!; [done| | |].
      - intros d. by rewrite Hfrom.
      - intros d. by rewrite Hto.
      - intros _. exists vs, v. by rewrite <- Hkey. }
    intros Hnil. rewrite Hnil in Hin. by apply elem_of_nil in Hin.
Qed.

(** [Sample.three_reports] filtered by [spam], which its summary lists. *)
Lemma violation_filter_matches_summary_witness :
  let state :=
    setFilters (mkPartialFilters None None (Some "spam") None None)
      Sample.three_reports in
  dateFrom (filters state) = None ∧
  dateTo (filters state) = None ∧
  violationType (filters state) ≠ "all" ∧
  violationType (filters state) ≠ "undefined" ∧
  inherited (violationType (filters state)) = false ∧
  is_Some (getViolationSummary state !! "spam") ∧
  getFilteredHistory Sample.code_unit_compare state ≠ [].
Proof.
  intros state.
  assert (violationType (filters state) ≠ "all") as Hall
    by (vm_compute; discriminate).
  assert (violationType (filters state) ≠ "undefined") as Hundefined
    by (vm_compute; discriminate).
  assert (is_Some (getViolationSummary state !! "spam")) as Hlisted
    by (vm_compute; by eexists).
  split_and!;
    [reflexivity|reflexivity|exact Hall|exact Hundefined|reflexivity|exact Hlisted|].
  exact (proj2 (violation_filter_matches_summary Sample.code_unit_compare state
                  eq_refl eq_refl Hall Hundefined eq_refl) Hlisted).
Defined.

(** ** The average confidence at work *)

(** Removing the text report of [Sample.busy_state] leaves the confidence of
    the image report as the average. *)
Lemma removeAnalysis_average_witness :
  let analysisId := generated_id Sample.env2 in
  is_Some (list_find (Analysis.has_id analysisId)
             (analysisHistory Sample.busy_state)) ∧
  averageConfidence (statistics (removeAnalysis analysisId Sample.busy_state))
    = mean_positive_confidence
        (analysisHistory (removeAnalysis analysisId Sample.busy_state)).
Proof.
  intros analysisId.
  assert (is_Some (list_find (Analysis.has_id analysisId)
                     (analysisHistory Sample.busy_state))) as Hfound
    by (vm_compute; by eexists).
  split; [exact Hfound|].
  exact (removeAnalysis_average analysisId Sample.busy_state Hfound).
Defined.

(** Lowering the confidence of the image report of [Sample.busy_state]. *)
Lemma updateAnalysis_average_witness :
  let analysisId := generated_id Sample.env1 in
  let updates := Sample.with_confidence (6 # 10)%Q in
  let old := newAnalysis Sample.env1 Sample.image_report in
  list_find (Analysis.has_id analysisId) (analysisHistory Sample.busy_state)
    = Some (1%nat, old) ∧
  confidence_changed old updates = true ∧
  averageConfidence (statistics (updateAnalysis analysisId updates Sample.busy_state))
    = mean_positive_confidence
        (analysisHistory (updateAnalysis analysisId updates Sample.busy_state)).
Proof.
  intros analysisId updates old.
  split_and!; [reflexivity..|].
  exact (updateAnalysis_average analysisId updates Sample.busy_state 1%nat old
           eq_refl eq_refl).
Defined.

(** A first report of confidence 0.8 in the empty store. *)
Lemma addAnalysis_average_witness :
  Analysis.confidence Sample.image_report = Some (8 # 10)%Q ∧
  positive_confidences
    (analysisHistory (addAnalysis Sample.env1 Sample.image_report initialState)) ≠ [] ∧
  ∃ q q',
    averageConfidence
      (statistics (addAnalysis Sample.env1 Sample.image_report initialState)) = Fin q ∧
    mean_positive_confidence
      (analysisHistory (addAnalysis Sample.env1 Sample.image_report initialState))
      = Fin q' ∧
    (q == q')%Q.
Proof.
  assert (positive_confidences
            (analysisHistory (addAnalysis Sample.env1 Sample.image_report initialState))
          ≠ []) as Hsome by (vm_compute; discriminate).
  split_and!; [reflexivity|exact Hsome|].
  exact (addAnalysis_average Sample.env1 Sample.image_report initialState (8 # 10)%Q
           eq_refl Hsome).
Defined.

(** A record of confidence 0 in the empty store. *)
Lemma addAnalysis_average_NaN_witness :
  Analysis.confidence (Sample.with_confidence 0) = Some 0%Q ∧
  Qpositive 0 = false ∧
  positive_confidences (analysisHistory initialState) = [] ∧
  averageConfidence
    (statistics (addAnalysis Sample.env2 (Sample.with_confidence 0) initialState))
    = NaN.
Proof.
  split_and!; [reflexivity..|].
  exact (addAnalysis_average_NaN Sample.env2 (Sample.with_confidence 0) initialState
           0%Q eq_refl eq_refl eq_refl).
Defined.

(** ** Violations are never under-counted *)

Lemma violations_length_nonneg a : 0 ≤ Analysis.violations_length a.
Proof. unfold Analysis.violations_length. destruct (Analysis.violations a); lia. Qed.

Lemma violation_count_filter_found (Q : Analysis.t → Prop)
    `{!∀ a, Decision (Q a)} history found :
  found ∈ history → ¬ Q found →
  violation_count (filter Q history) + Analysis.violations_length found
    ≤ violation_count history.
Proof.
  intros Hfound Hnot.
  induction Hfound as [found history|found a history _ IH].
  - rewrite filter_cons_False by done. simpl.
    assert (violation_count (filter Q history) ≤ violation_count history); [|lia].
    clear. induction history as [|b history IHh]; [done|].
    rewrite filter_cons. pose proof (violations_length_nonneg b).
    destruct (decide (Q b)); simpl; lia.
  - rewrite filter_cons. pose proof (violations_length_nonneg a).
    specialize (IH Hnot). destruct (decide (Q a)); simpl; lia.
Qed.

(** X25.  From the empty store, as long as no update carries a [violations] key,
    [violationsDetected] is never below the number of violations in the
    history, even when records share an id. *)
Theorem violations_never_undercounted calls :
  Forall keeps_violations calls →
  Forall
    (λ s, violation_count (analysisHistory s) ≤ violationsDetected (statistics s))
    (trace calls initialState).
Proof.
  intros Hkeeps.
  apply (trace_invariant _ (λ _, True) keeps_violations); try done;
    try by apply Forall_true.
  intros a s _ Hs Ha. destruct a; simpl; try done.
  - unfold newAnalysis. rewrite spread_fresh_violations_length by done. lia.
  - unfold removeAnalysis.
    destruct (list_find _ _) as [[k found]|] eqn:Hfind; [|done]. simpl.
    apply list_find_Some in Hfind as (Hk & Hid & _).
    apply list_elem_of_lookup_2 in Hk.
    pose proof (violation_count_filter_found
                  (λ a, ¬ Analysis.has_id analysisId a) _ found Hk) as Hle.
    assert (¬ ¬ Analysis.has_id analysisId found) as Hnn by tauto.
    specialize (Hle Hnn). lia.
  - unfold updateAnalysis.
    destruct (list_find _ _) as [[k found]|] eqn:Hfind; [|done]. simpl.
    apply list_find_Some in Hfind as (Hk & _ & _).
    simpl in Ha. destruct (Analysis.violations updates) eqn:Hupdates; [done|].
    rewrite (violation_count_insert _ _ found) by
      (done || by apply spread_violations_length).
    by destruct (confidence_changed _ _).
Qed.

(** Two records under the id [x], removed together: one violation is gone
    from the history and still counted. *)
Lemma violations_never_undercounted_witness :
  Forall keeps_violations Sample.twice_x_removed ∧
  Forall
    (λ s, violation_count (analysisHistory s) ≤ violationsDetected (statistics s))
    (trace Sample.twice_x_removed initialState).
Proof.
  assert (Forall keeps_violations Sample.twice_x_removed) as Hkeeps
    by (apply (bool_decide_unpack _); vm_compute; reflexivity).
  split; [exact Hkeeps|].
  exact (violations_never_undercounted Sample.twice_x_removed Hkeeps).
Defined.
